(** * IIoT-OPCUA: the adaptive z-score anomaly detector and the electrical
      feature pipeline

    A shallow embedding of
    - [AnomalyDetectionZscore] (electrical_anomaly_analytics_zscore/src/helper.py
      and its copies in single_signal_anomaly_detect_zscore/src/script.py and
      air_valve_anomaly_detect_zscore/src/script.py),
    - [ElectricalAnalytics] (helper.py) and
    - the analytics methods of [OpcHandlerAnalytics]
      (electrical_anomaly_analytics_zscore/src/script.py),
    followed by the properties of the specification, each stated over these
    definitions.

    Numbers.  Python floats are modelled by exact rationals ([Q]); [round]
    is round-half-to-even on the rational.  The square root that
    [statistics.stdev] takes is not a rational function: it is a parameter of
    the development (class [FloatSqrt]), so every general result holds for
    every square-root function, and a concrete instance is used only to
    evaluate examples.  Integers ([model_size], [anomaly_list_size], the anomaly
    flag, [peak_number]) are [Z].  A value handed to the detector may be any
    Python object: [pyvalue] is either a number or something that is not one. *)

From Stdlib Require Import String ZArith QArith Qabs Qround Bool List Lia Lqa.
Import ListNotations.

Set Implicit Arguments.
Local Open Scope Q_scope.

(* ================================================================= *)
(** ** Python values, exceptions, log records *)

(** A value as the detector receives it: a number, or an object that is not
    a number (a [str], [None], ...), kept by its [repr]. *)
Inductive pyvalue : Type :=
| Num (q : Q)
| NonNum (repr : string).

(** The exceptions the modelled code can raise. *)
Inductive exn : Type :=
| TypeError
| StatisticsError
| IndexError
| ZeroDivisionError
| UnboundLocalError.

Inductive outcome (A : Type) : Type :=
| Ok (a : A)
| Raise (e : exn).
Arguments Ok {A} a.
Arguments Raise {A} e.

(** What the code writes through [logger.error]: the message, the name of the
    unit and the exception are kept apart instead of being formatted. *)
Inductive log_event : Type :=
| LogThresholdZero                           (* "Z-score threshold must be above zero" *)
| LogAnomalyFailed (unit_name : string) (e : exn)
                                             (* "Calculation `anomaly of model` ... failed" *)
| LogRatioFailed (unit_name : string) (e : exn)
                                             (* "Calculation `anomaly ratio of model` ... failed" *)
| LogNoInrush (e : exn).                     (* "*** Error: ... - No inrush current detected ***" *)

(* ================================================================= *)
(** ** The effect monad

    A method mutates [self] statement by statement, may raise, and may log.
    The state reached when an exception is raised is kept: Python has no
    rollback, and [try ... except] resumes in the state the failing statement
    left behind. *)

Definition M (S A : Type) : Type := S -> outcome A * S * list log_event.

Definition ret {S A} (a : A) : M S A := fun s => (Ok a, s, []).

Definition bind {S A B} (m : M S A) (k : A -> M S B) : M S B :=
  fun s =>
    match m s with
    | (Ok a, s1, l1) =>
        match k a s1 with
        | (r, s2, l2) => (r, s2, l1 ++ l2)
        end
    | (Raise e, s1, l1) => (Raise e, s1, l1)
    end.

Definition raise {S A} (e : exn) : M S A := fun s => (Raise e, s, []).

(** An expression that may raise, evaluated in the current state. *)
Definition lift {S A} (o : outcome A) : M S A := fun s => (o, s, []).

Definition get {S} : M S S := fun s => (Ok s, s, []).
Definition modify {S} (f : S -> S) : M S unit := fun s => (Ok tt, f s, []).
Definition log {S} (ev : log_event) : M S unit := fun s => (Ok tt, s, [ev]).

(** [try: body except Exception as e: handler(e)]. *)
Definition try_except {S A} (body : M S A) (handler : exn -> M S A) : M S A :=
  fun s =>
    match body s with
    | (Ok a, s1, l1) => (Ok a, s1, l1)
    | (Raise e, s1, l1) =>
        match handler e s1 with
        | (r, s2, l2) => (r, s2, l1 ++ l2)
        end
    end.

Declare Scope monad_scope.
Delimit Scope monad_scope with monad.
Notation "x <- m ;; k" := (bind m (fun x => k))
  (at level 61, m at next level, right associativity) : monad_scope.
Notation "m ;; k" := (bind m (fun _ => k))
  (at level 61, right associativity) : monad_scope.

(** The three observations of a run. *)
Definition result_of {S A} (m : M S A) (s : S) : outcome A := fst (fst (m s)).
Definition exec {S A} (m : M S A) (s : S) : S := snd (fst (m s)).
Definition logs_of {S A} (m : M S A) (s : S) : list log_event := snd (m s).

(* ================================================================= *)
(** ** Numbers *)

Definition pow10 (n : nat) : Z := (10 ^ Z.of_nat n)%Z.

(** Nearest integer, ties to the even one. *)
Definition round_half_even (x : Q) : Z :=
  let f := Qfloor x in
  match ((x - inject_Z f) ?= (1 # 2))%Q with
  | Lt => f
  | Gt => (f + 1)%Z
  | Eq => if Z.even f then f else (f + 1)%Z
  end.

(** [round(x, ndigits)]. *)
Definition round_ndigits (x : Q) (ndigits : nat) : Q :=
  inject_Z (round_half_even (x * inject_Z (pow10 ndigits)))
  / inject_Z (pow10 ndigits).

(** [a / b] on Python numbers. *)
Definition true_divide (a b : Q) : outcome Q :=
  if Qeq_bool b 0 then Raise ZeroDivisionError else Ok (a / b).

Definition Qsum (xs : list Q) : Q := fold_right Qplus 0 xs.
Definition Zsum (xs : list Z) : Z := fold_right Z.add 0%Z xs.

(** [abs(v)]: a [TypeError] on an object that is not a number. *)
Definition py_abs (v : pyvalue) : outcome Q :=
  match v with
  | Num q => Ok (Qabs q)
  | NonNum _ => Raise TypeError
  end.

(** The numbers of a data set, as [statistics._sum] reads them: the first
    element that is not a number raises [TypeError]. *)
Fixpoint numbers (data : list pyvalue) : outcome (list Q) :=
  match data with
  | [] => Ok []
  | Num q :: rest =>
      match numbers rest with
      | Ok qs => Ok (q :: qs)
      | Raise e => Raise e
      end
  | NonNum _ :: _ => Raise TypeError
  end.

(** The square root of the platform ([math.sqrt] inside [statistics.stdev]). *)
Class FloatSqrt : Type := fsqrt : Q -> Q.

(** A square root to evaluate examples with: the integer square root of the
    argument scaled by [10^30], that is fifteen decimals, rounded down. *)
Definition sqrt_15_digits : FloatSqrt := fun q =>
  if Qle_bool q 0 then 0
  else inject_Z (Z.sqrt (Qfloor (q * inject_Z (pow10 30)))) / inject_Z (pow10 15).

Section Statistics.
Context {float_sqrt : FloatSqrt}.

(** [statistics.mean(data)]. *)
Definition mean (data : list pyvalue) : outcome Q :=
  match numbers data with
  | Raise e => Raise e
  | Ok [] => Raise StatisticsError          (* mean requires at least one data point *)
  | Ok xs => Ok (Qsum xs / inject_Z (Z.of_nat (length xs)))
  end.

(** Sum of the squared deviations from [c]. *)
Definition sum_sq_dev (xs : list Q) (c : Q) : Q :=
  Qsum (map (fun x => (x - c) * (x - c)) xs).

(** [statistics.stdev(data)]: the sample standard deviation, the square root
    of the sum of squared deviations from the mean over [n - 1]. *)
Definition stdev (data : list pyvalue) : outcome Q :=
  match numbers data with
  | Raise e => Raise e
  | Ok xs =>
      if (length xs <? 2)%nat
      then Raise StatisticsError            (* stdev requires at least two data points *)
      else
        let n := inject_Z (Z.of_nat (length xs)) in
        let xbar := Qsum xs / n in
        Ok (fsqrt (sum_sq_dev xs xbar / (n - 1)))
  end.
End Statistics.

(* ================================================================= *)
(** ** [AnomalyDetectionZscore] *)

(** The three copies of the class differ in two roundings of
    [check_if_anomaly]: helper.py keeps the mean as it is and rounds the
    z-score to 4 decimals, the two script.py copies round the mean to 3
    decimals and the z-score to 3. *)
Inductive variant : Type :=
| Electrical        (* electrical_anomaly_analytics_zscore/src/helper.py *)
| SingleSignal      (* single_signal_anomaly_detect_zscore/src/script.py *)
| AirValve.         (* air_valve_anomaly_detect_zscore/src/script.py *)

Definition round_avg (V : variant) (x : Q) : Q :=
  match V with
  | Electrical => x
  | SingleSignal | AirValve => round_ndigits x 3
  end.

Definition z_digits (V : variant) : nat :=
  match V with
  | Electrical => 4%nat
  | SingleSignal | AirValve => 3%nat
  end.

(** The attributes of an instance ([self._model_data], ...). *)
Record detector : Type := mkDetector {
  model_data : list pyvalue;
  model_size : Z;
  anomaly_list : list Z;
  anomaly_list_size : Z;
  anomaly_ratio : Q;
  anomaly : Z;
  model_avg : Q;
  model_std_dev : Q;
  z_score : Q;
  z_score_thresh : Q;
  name : string
}.

(** Assignments to one attribute. *)
Definition with_model_data (x : list pyvalue) (d : detector) : detector :=
  mkDetector x (model_size d) (anomaly_list d) (anomaly_list_size d)
    (anomaly_ratio d) (anomaly d) (model_avg d) (model_std_dev d) (z_score d)
    (z_score_thresh d) (name d).
Definition with_anomaly_list (x : list Z) (d : detector) : detector :=
  mkDetector (model_data d) (model_size d) x (anomaly_list_size d)
    (anomaly_ratio d) (anomaly d) (model_avg d) (model_std_dev d) (z_score d)
    (z_score_thresh d) (name d).
Definition with_anomaly_ratio (x : Q) (d : detector) : detector :=
  mkDetector (model_data d) (model_size d) (anomaly_list d) (anomaly_list_size d)
    x (anomaly d) (model_avg d) (model_std_dev d) (z_score d)
    (z_score_thresh d) (name d).
Definition with_anomaly (x : Z) (d : detector) : detector :=
  mkDetector (model_data d) (model_size d) (anomaly_list d) (anomaly_list_size d)
    (anomaly_ratio d) x (model_avg d) (model_std_dev d) (z_score d)
    (z_score_thresh d) (name d).
Definition with_model_avg (x : Q) (d : detector) : detector :=
  mkDetector (model_data d) (model_size d) (anomaly_list d) (anomaly_list_size d)
    (anomaly_ratio d) (anomaly d) x (model_std_dev d) (z_score d)
    (z_score_thresh d) (name d).
Definition with_model_std_dev (x : Q) (d : detector) : detector :=
  mkDetector (model_data d) (model_size d) (anomaly_list d) (anomaly_list_size d)
    (anomaly_ratio d) (anomaly d) (model_avg d) x (z_score d)
    (z_score_thresh d) (name d).
Definition with_z_score (x : Q) (d : detector) : detector :=
  mkDetector (model_data d) (model_size d) (anomaly_list d) (anomaly_list_size d)
    (anomaly_ratio d) (anomaly d) (model_avg d) (model_std_dev d) x
    (z_score_thresh d) (name d).
Definition with_z_score_thresh (x : Q) (d : detector) : detector :=
  mkDetector (model_data d) (model_size d) (anomaly_list d) (anomaly_list_size d)
    (anomaly_ratio d) (anomaly d) (model_avg d) (model_std_dev d) (z_score d)
    x (name d).

(** [__init__(name, model_size, anomaly_list_size, logger)]. *)
Definition new_detector (name : string) (model_size anomaly_list_size : Z) : detector :=
  {| model_data := [];
     model_size := model_size;
     anomaly_list := [];
     anomaly_list_size := anomaly_list_size;
     anomaly_ratio := 0;
     anomaly := 0%Z;
     model_avg := 0;
     model_std_dev := 0;
     z_score := 0;
     z_score_thresh := 0;
     name := name |}.

(** [len(l)]. *)
Definition len {A} (l : list A) : Z := Z.of_nat (length l).

(** [l.pop(0)], for its effect on the list. *)
Definition pop0 {A} (l : list A) : outcome (list A) :=
  match l with
  | [] => Raise IndexError
  | _ :: rest => Ok rest
  end.

Definition Qgt_bool (a b : Q) : bool := negb (Qle_bool a b).

(** Reading an attribute of [self]. *)
Definition read {S A} (f : S -> A) : M S A := fun s => (Ok (f s), s, []).

(** [model_completeness]: [int(100 * len(model_data) / model_size)]. *)
Definition model_completeness (d : detector) : outcome Z :=
  match true_divide (inject_Z (100 * len (model_data d))) (inject_Z (model_size d)) with
  | Ok q => Ok (Qnum q ÷ Zpos (Qden q))%Z
  | Raise e => Raise e
  end.

(** The setter of [z_score_thresh]. *)
Definition set_z_score_thresh (z_score_threshold : Q) : M detector unit :=
  (if Qeq_bool z_score_threshold 0 then
     log LogThresholdZero ;;
     modify (with_z_score_thresh 2)
   else
     modify (with_z_score_thresh z_score_threshold))%monad.

(** [reset_algorithm()]. *)
Definition reset_algorithm : M detector unit :=
  (modify (with_model_data []) ;;
   modify (with_anomaly_list []) ;;
   modify (with_anomaly_ratio 0) ;;
   modify (with_anomaly 0%Z) ;;
   modify (with_model_avg 0) ;;
   modify (with_model_std_dev 0) ;;
   modify (with_z_score 0))%monad.

(** [is_model_complete()]. *)
Definition is_model_complete (d : detector) : bool :=
  (len (model_data d) =? model_size d)%Z.

(** [calculate_anomaly_ratio()]. *)
Definition calculate_anomaly_ratio : M detector unit :=
  (try_except
     (complete <- read is_model_complete ;;
      if complete then
        n <- read (fun self => len (anomaly_list self)) ;;
        size <- read anomaly_list_size ;;
        if (n <? size)%Z then
          flag <- read anomaly ;;
          l <- read anomaly_list ;;
          modify (with_anomaly_list (l ++ [flag]))
        else
          l <- read anomaly_list ;;
          l' <- lift (pop0 l) ;;
          modify (with_anomaly_list l') ;;
          flag <- read anomaly ;;
          l <- read anomaly_list ;;
          modify (with_anomaly_list (l ++ [flag])) ;;
          l <- read anomaly_list ;;
          size <- read anomaly_list_size ;;
          r <- lift (true_divide (inject_Z (Zsum l)) (inject_Z size)) ;;
          modify (with_anomaly_ratio (round_ndigits r 3))
      else ret tt)
     (fun e => n <- read name ;; log (LogRatioFailed n e)))%monad.

Section Detector.
Context {float_sqrt : FloatSqrt}.
Variable V : variant.

(** [check_if_anomaly(value)]. *)
Definition check_if_anomaly (value : pyvalue) : M detector unit :=
  (try_except
     (complete <- read is_model_complete ;;
      if complete then
        data <- read model_data ;;
        m <- lift (mean data) ;;
        modify (with_model_avg (round_avg V (Qabs m))) ;;
        data <- read model_data ;;
        sd <- lift (stdev data) ;;
        modify (with_model_std_dev (Qabs sd)) ;;
        sd <- read model_std_dev ;;
        (if Qeq_bool sd 0 then modify (with_model_std_dev (1 # 1000)) else ret tt) ;;
        a <- lift (py_abs value) ;;
        avg <- read model_avg ;;
        sd <- read model_std_dev ;;
        z <- lift (true_divide (a - avg) sd) ;;
        modify (with_z_score (round_ndigits z (z_digits V))) ;;
        z <- read z_score ;;
        thresh <- read z_score_thresh ;;
        if Qgt_bool (Qabs z) thresh then
          modify (with_anomaly 1%Z)
        else
          data <- read model_data ;;
          data' <- lift (pop0 data) ;;
          modify (with_model_data data') ;;
          data <- read model_data ;;
          modify (with_model_data (data ++ [value])) ;;
          modify (with_anomaly 0%Z)
      else
        data <- read model_data ;;
        modify (with_model_data (data ++ [value])))
     (fun e => n <- read name ;; log (LogAnomalyFailed n e)))%monad.

(** A sequence of [check_if_anomaly] calls, one per value. *)
Fixpoint feed (values : list pyvalue) (d : detector) : detector :=
  match values with
  | [] => d
  | v :: rest => feed rest (exec (check_if_anomaly v) d)
  end.
End Detector.

(* ================================================================= *)
(** ** [ElectricalAnalytics] *)

(** The sample arrays are numpy arrays of float64, the totals their sums. *)
Record electrical_analytics : Type := mkElectricalAnalytics {
  el_current_ph1_samples : list Q;
  el_current_ph2_samples : list Q;
  el_current_ph3_samples : list Q;
  el_current_integr_ph1_total : Q;
  el_current_integr_ph2_total : Q;
  el_current_integr_ph3_total : Q
}.

(** [ElectricalAnalytics()]. *)
Definition new_electrical_analytics : electrical_analytics :=
  mkElectricalAnalytics [] [] [] 0 0 0.

(** [append_samples(phase1, phase2, phase3)]. *)
Definition append_samples (phase1 phase2 phase3 : Q) (ea : electrical_analytics)
  : electrical_analytics :=
  mkElectricalAnalytics
    (el_current_ph1_samples ea ++ [phase1])
    (el_current_ph2_samples ea ++ [phase2])
    (el_current_ph3_samples ea ++ [phase3])
    (el_current_integr_ph1_total ea)
    (el_current_integr_ph2_total ea)
    (el_current_integr_ph3_total ea).

(** [clear_samples()]. *)
Definition clear_samples (ea : electrical_analytics) : electrical_analytics :=
  mkElectricalAnalytics [] [] []
    (el_current_integr_ph1_total ea)
    (el_current_integr_ph2_total ea)
    (el_current_integr_ph3_total ea).

Definition samples_number_ph1 (ea : electrical_analytics) : Z :=
  len (el_current_ph1_samples ea).
Definition samples_number_ph2 (ea : electrical_analytics) : Z :=
  len (el_current_ph2_samples ea).
Definition samples_number_ph3 (ea : electrical_analytics) : Z :=
  len (el_current_ph3_samples ea).

Definition with_totals (t1 t2 t3 : Q) (ea : electrical_analytics) : electrical_analytics :=
  mkElectricalAnalytics
    (el_current_ph1_samples ea)
    (el_current_ph2_samples ea)
    (el_current_ph3_samples ea)
    t1 t2 t3.

(* ================================================================= *)
(** ** Division on the two kinds of scalar

    [calculate_el_current_assymetry] divides by the mean of its arguments.
    What a zero divisor does depends on the arguments' type: Python numbers
    raise [ZeroDivisionError]; numpy float64 scalars, which is what
    [read_values] passes (the totals are [ndarray.sum()] results), follow
    IEEE 754 and give [nan] or [inf] with a warning. *)

Inductive scalar_kind : Type :=
| PyNumber
| NpFloat64.

Inductive float64 : Type :=
| Finite (q : Q)
| PosInf
| NegInf
| NaN.

(** [a / b]; the zero divisor of the numpy case is [+0.0], the sign a sum
    of finite terms that are not all [-0.0] has. *)
Definition divide (k : scalar_kind) (a b : Q) : outcome float64 :=
  if Qeq_bool b 0 then
    match k with
    | PyNumber => Raise ZeroDivisionError
    | NpFloat64 =>
        Ok (if Qeq_bool a 0 then NaN else if Qle_bool 0 a then PosInf else NegInf)
    end
  else Ok (Finite (a / b)).

(** [c * x] for a positive constant [c]. *)
Definition scale (c : Q) (x : float64) : float64 :=
  match x with
  | Finite q => Finite (c * q)
  | other => other
  end.

(** [round(float(x), ndigits)]. *)
Definition round_float64 (x : float64) (ndigits : nat) : float64 :=
  match x with
  | Finite q => Finite (round_ndigits q ndigits)
  | other => other
  end.

(** [calculate_el_current_assymetry(ph1_total, ph2_total, ph3_total)]. *)
Definition calculate_el_current_assymetry (k : scalar_kind)
    (el_current_integr_ph1_total el_current_integr_ph2_total
     el_current_integr_ph3_total : Q) : outcome float64 :=
  let el_current_integr_mean :=
    (el_current_integr_ph1_total + el_current_integr_ph2_total
     + el_current_integr_ph3_total) / 3 in
  match divide k
          (Qabs (el_current_integr_ph1_total - el_current_integr_mean)
           + Qabs (el_current_integr_ph2_total - el_current_integr_mean)
           + Qabs (el_current_integr_ph3_total - el_current_integr_mean))
          el_current_integr_mean with
  | Ok r => Ok (scale 100 r)
  | Raise e => Raise e
  end.

(* ================================================================= *)
(** ** Peak detection: [scipy.signal.find_peaks(x, height=h)]

    The library routine is not part of the repository; the definitions follow
    its algorithm: [_local_maxima_1d] walks the array once and records the
    middle index of every plateau that is higher than both its neighbours,
    the first and the last sample never being peaks; [height] then keeps the
    maxima whose sample is at least [h]. *)

Definition Qlt_bool (a b : Q) : bool := negb (Qle_bool b a).

Definition at_index (x : list Q) (i : nat) : Q := nth i x 0.

(** The inner loop: [while i_ahead < i_max and x[i_ahead] == x[i]: i_ahead += 1]. *)
Fixpoint plateau_end (x : list Q) (xi : Q) (i_max fuel i_ahead : nat) : nat :=
  match fuel with
  | O => i_ahead
  | S fuel' =>
      if (i_ahead <? i_max)%nat && Qeq_bool (at_index x i_ahead) xi
      then plateau_end x xi i_max fuel' (S i_ahead)
      else i_ahead
  end.

(** The outer loop: [while i < i_max: ...; i += 1].  Each turn advances [i],
    so [length x] turns are enough. *)
Fixpoint local_maxima_loop (x : list Q) (i_max fuel i : nat) : list nat :=
  match fuel with
  | O => []
  | S fuel' =>
      if (i <? i_max)%nat then
        if Qlt_bool (at_index x (i - 1)) (at_index x i) then
          let i_ahead := plateau_end x (at_index x i) i_max (length x) (i + 1) in
          if Qlt_bool (at_index x i_ahead) (at_index x i) then
            ((i + (i_ahead - 1)) / 2)%nat
              :: local_maxima_loop x i_max fuel' (i_ahead + 1)
          else local_maxima_loop x i_max fuel' (i + 1)
        else local_maxima_loop x i_max fuel' (i + 1)
      else []
  end.

Definition local_maxima_1d (x : list Q) : list nat :=
  local_maxima_loop x (length x - 1) (length x) 1.

(** The indices of the peaks, in increasing order. *)
Definition find_peaks (x : list Q) (height : Q) : list nat :=
  filter (fun p => Qle_bool height (at_index x p)) (local_maxima_1d x).

(** [l[k]] with Python's negative indices. *)
Definition py_index {A} (l : list A) (k : Z) : outcome A :=
  let i := if (k <? 0)%Z then (len l + k)%Z else k in
  if ((0 <=? i) && (i <? len l))%Z then
    match nth_error l (Z.to_nat i) with
    | Some a => Ok a
    | None => Raise IndexError
    end
  else Raise IndexError.

(* ================================================================= *)
(** ** [OpcHandlerAnalytics]: the analytics methods *)

Record handler : Type := mkHandler {
  el_current_integr_ph1_analytics : detector;
  el_current_integr_ph2_analytics : detector;
  el_current_integr_ph3_analytics : detector;
  el_inrush_current_ph1_analytics : detector;
  el_inrush_current_ph2_analytics : detector;
  el_inrush_current_ph3_analytics : detector;
  electrical : electrical_analytics
}.

(** The module-level constants read from the environment. *)
Record config : Type := mkConfig {
  CURRENT_PEAK_NUMBER : Z;
  CURRENT_PEAK_HEIGHT : Q;
  Z_SCORE_THRESHOLD : Q;
  MODEL_WINDOW_SIZE : Z;
  ANOMALY_LIST_SIZE : Z
}.

(** [OpcHandlerAnalytics(server_url)], as far as the analytics go. *)
Definition new_handler (c : config) : handler :=
  let mk n := new_detector n (MODEL_WINDOW_SIZE c) (ANOMALY_LIST_SIZE c) in
  mkHandler
    (mk "el_current_integr_ph1_analytics"%string)
    (mk "el_current_integr_ph2_analytics"%string)
    (mk "el_current_integr_ph3_analytics"%string)
    (mk "el_inrush_current_ph1_analytics"%string)
    (mk "el_inrush_current_ph2_analytics"%string)
    (mk "el_inrush_current_ph3_analytics"%string)
    new_electrical_analytics.

(** The six detector attributes. *)
Inductive unit_id : Type :=
| IntegrPh1 | IntegrPh2 | IntegrPh3
| InrushPh1 | InrushPh2 | InrushPh3.

Definition get_unit (id : unit_id) (h : handler) : detector :=
  match id with
  | IntegrPh1 => el_current_integr_ph1_analytics h
  | IntegrPh2 => el_current_integr_ph2_analytics h
  | IntegrPh3 => el_current_integr_ph3_analytics h
  | InrushPh1 => el_inrush_current_ph1_analytics h
  | InrushPh2 => el_inrush_current_ph2_analytics h
  | InrushPh3 => el_inrush_current_ph3_analytics h
  end.

Definition set_unit (id : unit_id) (d : detector) (h : handler) : handler :=
  match id with
  | IntegrPh1 =>
      mkHandler d (el_current_integr_ph2_analytics h) (el_current_integr_ph3_analytics h)
        (el_inrush_current_ph1_analytics h) (el_inrush_current_ph2_analytics h)
        (el_inrush_current_ph3_analytics h) (electrical h)
  | IntegrPh2 =>
      mkHandler (el_current_integr_ph1_analytics h) d (el_current_integr_ph3_analytics h)
        (el_inrush_current_ph1_analytics h) (el_inrush_current_ph2_analytics h)
        (el_inrush_current_ph3_analytics h) (electrical h)
  | IntegrPh3 =>
      mkHandler (el_current_integr_ph1_analytics h) (el_current_integr_ph2_analytics h) d
        (el_inrush_current_ph1_analytics h) (el_inrush_current_ph2_analytics h)
        (el_inrush_current_ph3_analytics h) (electrical h)
  | InrushPh1 =>
      mkHandler (el_current_integr_ph1_analytics h) (el_current_integr_ph2_analytics h)
        (el_current_integr_ph3_analytics h)
        d (el_inrush_current_ph2_analytics h)
        (el_inrush_current_ph3_analytics h) (electrical h)
  | InrushPh2 =>
      mkHandler (el_current_integr_ph1_analytics h) (el_current_integr_ph2_analytics h)
        (el_current_integr_ph3_analytics h)
        (el_inrush_current_ph1_analytics h) d
        (el_inrush_current_ph3_analytics h) (electrical h)
  | InrushPh3 =>
      mkHandler (el_current_integr_ph1_analytics h) (el_current_integr_ph2_analytics h)
        (el_current_integr_ph3_analytics h)
        (el_inrush_current_ph1_analytics h) (el_inrush_current_ph2_analytics h)
        d (electrical h)
  end.

Definition with_electrical (ea : electrical_analytics) (h : handler) : handler :=
  mkHandler (el_current_integr_ph1_analytics h) (el_current_integr_ph2_analytics h)
    (el_current_integr_ph3_analytics h)
    (el_inrush_current_ph1_analytics h) (el_inrush_current_ph2_analytics h)
    (el_inrush_current_ph3_analytics h) ea.

(** A method call on one of the six detectors. *)
Definition on_unit {A} (id : unit_id) (m : M detector A) : M handler A :=
  fun h =>
    match m (get_unit id h) with
    | (r, d, l) => (r, set_unit id d h, l)
    end.

(** The value [calculate_inrush_current_analytics] returns per phase: the
    inrush current, or the object [False]. *)
Inductive inrush_result : Type :=
| Inrush (q : Q)
| PyFalse.

(** [x is not False]. *)
Definition is_not_False (x : inrush_result) : bool :=
  match x with
  | Inrush _ => true
  | PyFalse => false
  end.

(** Reading a local variable that an [if] may have left unassigned. *)
Definition local_var {A} (x : option A) : outcome A :=
  match x with
  | Some a => Ok a
  | None => Raise UnboundLocalError
  end.

(** A field of the InfluxDB point. *)
Inductive field_value : Type :=
| FloatField (x : float64)
| IntField (z : Z).

(** The point handed to [write_api.write]. *)
Record point : Type := mkPoint {
  measurement : string;
  tags : list (string * string);
  fields : list (string * field_value);
  time_ms : Z
}.

(** What one turn of the polling loop has read from the OPC UA node. *)
Record reading : Type := mkReading {
  line_name : string;
  machine_name : string;
  device_name : string;
  device_state : string;
  synch_pulse : bool;
  timestamp : Z;
  el_current_phase1 : Q;
  el_current_phase2 : Q;
  el_current_phase3 : Q
}.

Section Handler.
Context {float_sqrt : FloatSqrt}.

(** [calculate_integr_analytics(ph1_samples, ph2_samples, ph3_samples, z_threshold_integr)]. *)
Definition calculate_integr_analytics
    (el_current_ph1_samples el_current_ph2_samples el_current_ph3_samples : list Q)
    (z_threshold_integr : Q) : M handler (Q * Q * Q) :=
  (let el_current_integr_ph1_total := Qsum el_current_ph1_samples in
   let el_current_integr_ph2_total := Qsum el_current_ph2_samples in
   let el_current_integr_ph3_total := Qsum el_current_ph3_samples in
   on_unit IntegrPh1 (set_z_score_thresh z_threshold_integr) ;;
   on_unit IntegrPh2 (set_z_score_thresh z_threshold_integr) ;;
   on_unit IntegrPh3 (set_z_score_thresh z_threshold_integr) ;;
   on_unit IntegrPh1 (check_if_anomaly Electrical (Num el_current_integr_ph1_total)) ;;
   on_unit IntegrPh2 (check_if_anomaly Electrical (Num el_current_integr_ph2_total)) ;;
   on_unit IntegrPh3 (check_if_anomaly Electrical (Num el_current_integr_ph3_total)) ;;
   on_unit IntegrPh1 calculate_anomaly_ratio ;;
   on_unit IntegrPh2 calculate_anomaly_ratio ;;
   on_unit IntegrPh3 calculate_anomaly_ratio ;;
   ret (el_current_integr_ph1_total,
        el_current_integr_ph2_total,
        el_current_integr_ph3_total))%monad.

(** One of the three [if len(peaks) > 0 and peak_number <= len(peaks): ...]
    blocks of [calculate_inrush_current_analytics]; the result is the local
    variable [inrush_current_phN], [None] when the block did not run. *)
Definition inrush_phase (id : unit_id) (samples : list Q) (peaks : list nat)
    (z_threshold_inrush : Q) (peak_number : Z) : M handler (option Q) :=
  (if ((0 <? len peaks) && (peak_number <=? len peaks))%Z then
     p <- lift (py_index peaks (peak_number - 1)) ;;
     inrush_current <- lift (py_index samples (Z.of_nat p)) ;;
     on_unit id (set_z_score_thresh z_threshold_inrush) ;;
     on_unit id (check_if_anomaly Electrical (Num inrush_current)) ;;
     on_unit id calculate_anomaly_ratio ;;
     ret (Some inrush_current)
   else ret None)%monad.

(** [calculate_inrush_current_analytics(ph1_samples, ph2_samples, ph3_samples,
    z_threshold_inrush, height_of_peak, peak_number)]. *)
Definition calculate_inrush_current_analytics
    (el_current_ph1_samples el_current_ph2_samples el_current_ph3_samples : list Q)
    (z_threshold_inrush height_of_peak : Q) (peak_number : Z)
  : M handler (inrush_result * inrush_result * inrush_result) :=
  (let el_current_peaks_ph1 := find_peaks el_current_ph1_samples height_of_peak in
   let el_current_peaks_ph2 := find_peaks el_current_ph2_samples height_of_peak in
   let el_current_peaks_ph3 := find_peaks el_current_ph3_samples height_of_peak in
   inrush_current_ph1 <-
     inrush_phase InrushPh1 el_current_ph1_samples el_current_peaks_ph1
       z_threshold_inrush peak_number ;;
   inrush_current_ph2 <-
     inrush_phase InrushPh2 el_current_ph2_samples el_current_peaks_ph2
       z_threshold_inrush peak_number ;;
   inrush_current_ph3 <-
     inrush_phase InrushPh3 el_current_ph3_samples el_current_peaks_ph3
       z_threshold_inrush peak_number ;;
   try_except
     (v1 <- lift (local_var inrush_current_ph1) ;;
      v2 <- lift (local_var inrush_current_ph2) ;;
      v3 <- lift (local_var inrush_current_ph3) ;;
      ret (Inrush v1, Inrush v2, Inrush v3))
     (fun e =>
        log (LogNoInrush e) ;;
        ret (PyFalse, PyFalse, PyFalse)))%monad.

(** The point of measurement "ElectricalAnalytics" that [read_values]
    builds, field by field as the source lists them. *)
Definition analytics_point (r : reading) (h : handler)
    (el_current_assymetry : float64) (inrush1 inrush2 inrush3 : Q) : point :=
  let ea := electrical h in
  let f4 q := FloatField (Finite (round_ndigits q 4)) in
  let i1 := el_current_integr_ph1_analytics h in
  let i2 := el_current_integr_ph2_analytics h in
  let i3 := el_current_integr_ph3_analytics h in
  let r1 := el_inrush_current_ph1_analytics h in
  let r2 := el_inrush_current_ph2_analytics h in
  let r3 := el_inrush_current_ph3_analytics h in
  mkPoint "ElectricalAnalytics"
    [ ("line_name", line_name r);
      ("machine_name", machine_name r);
      ("device_name", device_name r) ]%string
    [ ("el_current_assymetry", FloatField (round_float64 el_current_assymetry 2));
      ("el_current_integral_ph1", f4 (el_current_integr_ph1_total ea));
      ("el_current_integral_ph2", f4 (el_current_integr_ph2_total ea));
      ("el_current_integral_ph3", f4 (el_current_integr_ph3_total ea));
      ("el_current_integral_ph1_z_score", f4 (z_score i1));
      ("el_current_integral_ph1_z_score_thresh", f4 (z_score_thresh i1));
      ("el_current_integral_ph2_z_score", f4 (z_score i2));
      ("el_current_integral_ph2_z_score_thresh", f4 (z_score_thresh i2));
      ("el_current_integral_ph3_z_score", f4 (z_score i3));
      ("el_current_integral_ph3_z_score_thresh", f4 (z_score_thresh i3));
      ("el_current_integral_ph1_anomaly", IntField (anomaly r1));
      ("el_current_integral_ph2_anomaly", IntField (anomaly r2));
      ("el_current_integral_ph3_anomaly", IntField (anomaly r3));
      ("el_current_integral_ph1_anomaly_ratio", f4 (anomaly_ratio r1));
      ("el_current_integral_ph2_anomaly_ratio", f4 (anomaly_ratio r2));
      ("el_current_integral_ph3_anomaly_ratio", f4 (anomaly_ratio r3));
      ("el_inrush_current_ph1", f4 inrush1);
      ("el_inrush_current_ph2", f4 inrush2);
      ("el_inrush_current_ph3", f4 inrush3);
      ("el_inrush_current_ph1_anomaly", IntField (anomaly r1));
      ("el_inrush_current_ph2_anomaly", IntField (anomaly r1));
      ("el_inrush_current_ph3_anomaly", IntField (anomaly r1));
      ("el_inrush_current_ph1_anomaly_ratio", f4 (anomaly_ratio r1));
      ("el_inrush_current_ph2_anomaly_ratio", f4 (anomaly_ratio r1));
      ("el_inrush_current_ph3_anomaly_ratio", f4 (anomaly_ratio r1)) ]%string
    (timestamp r).

(** The finalize branch of [read_values]: the device is not running any
    more, no synchronisation pulse, samples in all three buffers.  The result
    is the point written to the database, if one is. *)
Definition finalize_cycle (c : config) (r : reading) : M handler (option point) :=
  (ea <- read electrical ;;
   totals <- calculate_integr_analytics
               (el_current_ph1_samples ea) (el_current_ph2_samples ea)
               (el_current_ph3_samples ea) (Z_SCORE_THRESHOLD c) ;;
   let '(t1, t2, t3) := totals in
   modify (fun h => with_electrical (with_totals t1 t2 t3 (electrical h)) h) ;;
   ea <- read electrical ;;
   el_current_assymetry <-
     lift (calculate_el_current_assymetry NpFloat64
             (el_current_integr_ph1_total ea)
             (el_current_integr_ph2_total ea)
             (el_current_integr_ph3_total ea)) ;;
   inrush <- calculate_inrush_current_analytics
               (el_current_ph1_samples ea) (el_current_ph2_samples ea)
               (el_current_ph3_samples ea)
               (Z_SCORE_THRESHOLD c) (CURRENT_PEAK_HEIGHT c) (CURRENT_PEAK_NUMBER c) ;;
   let '(el_inrush_current_ph1, el_inrush_current_ph2, el_inrush_current_ph3) := inrush in
   written <-
     (if is_not_False el_inrush_current_ph1
         && is_not_False el_inrush_current_ph2
         && is_not_False el_inrush_current_ph3
      then
        match el_inrush_current_ph1, el_inrush_current_ph2, el_inrush_current_ph3 with
        | Inrush v1, Inrush v2, Inrush v3 =>
            h <- get ;;
            ret (Some (analytics_point r h el_current_assymetry v1 v2 v3))
        | _, _, _ => ret None
        end
      else ret None) ;;
   modify (fun h => with_electrical (clear_samples (electrical h)) h) ;;
   ret written)%monad.

(** The body of [read_values] for a reading with a new time stamp. *)
Definition process_reading (c : config) (r : reading) : M handler (option point) :=
  (if String.eqb (device_state r) "Running" then
     modify (fun h =>
               with_electrical
                 (append_samples (el_current_phase1 r) (el_current_phase2 r)
                    (el_current_phase3 r) (electrical h)) h) ;;
     ret None
   else if negb (String.eqb (device_state r) "Running") && synch_pulse r then
     modify (fun h => with_electrical (clear_samples (electrical h)) h) ;;
     ret None
   else
     ea <- read electrical ;;
     if negb (String.eqb (device_state r) "Running")
        && (0 <? samples_number_ph1 ea)%Z
        && (0 <? samples_number_ph2 ea)%Z
        && (0 <? samples_number_ph3 ea)%Z
     then finalize_cycle c r
     else ret None)%monad.




End Handler.

(* ================================================================= *)
(** ** Notions used in the statements *)

(** The invariant of the window: [len(model_data) <= model_size]. *)
Definition window_bounded (d : detector) : Prop :=
  (len (model_data d) <= model_size d)%Z.

(** What a caller can observe of the model through the read-only properties
    and [is_model_complete]. *)
Record observation : Type := mkObservation {
  obs_window : list pyvalue;
  obs_complete : bool;
  obs_anomaly : Z;
  obs_z_score : Q;
  obs_model_avg : Q;
  obs_model_std_dev : Q;
  obs_anomaly_ratio : Q
}.

Definition observe (d : detector) : observation :=
  mkObservation (model_data d) (is_model_complete d) (anomaly d) (z_score d)
    (model_avg d) (model_std_dev d) (anomaly_ratio d).

Section Runs.
Context {float_sqrt : FloatSqrt}.
Variable V : variant.

(** The states after each call of a sequence of [check_if_anomaly] calls. *)
Fixpoint trace (values : list pyvalue) (d : detector) : list detector :=
  match values with
  | [] => []
  | v :: rest =>
      let d' := exec (check_if_anomaly V v) d in
      d' :: trace rest d'
  end.

(** One classification cycle as the callers run it:
    [check_if_anomaly(value)] and then [calculate_anomaly_ratio()]. *)
Definition cycle (value : pyvalue) (d : detector) : detector :=
  exec calculate_anomaly_ratio (exec (check_if_anomaly V value) d).
End Runs.


(** [m] started in [s] returns normally, with a value and a final state
    that satisfy [P]. *)
Definition returns {S A} (m : M S A) (s : S) (P : A -> S -> Prop) : Prop :=
  exists a s' l, m s = (Ok a, s', l) /\ P a s'.




(* ================================================================= *)
(** ** The public methods of a detector, as a client calls them *)

Inductive method : Type :=
| SetThreshold (z_score_threshold : Q)      (* [obj.z_score_thresh = ...] *)
| ResetAlgorithm                            (* [obj.reset_algorithm()] *)
| CheckIfAnomaly (value : pyvalue)          (* [obj.check_if_anomaly(value)] *)
| CalculateAnomalyRatio.                    (* [obj.calculate_anomaly_ratio()] *)

Section Calls.
Context {float_sqrt : FloatSqrt}.
Variable V : variant.

Definition call (m : method) : M detector unit :=
  match m with
  | SetThreshold t => set_z_score_thresh t
  | ResetAlgorithm => reset_algorithm
  | CheckIfAnomaly v => check_if_anomaly V v
  | CalculateAnomalyRatio => calculate_anomaly_ratio
  end.

(** A sequence of method calls on one detector. *)
Fixpoint run (calls : list method) (d : detector) : detector :=
  match calls with
  | [] => d
  | m :: rest => run rest (exec (call m) d)
  end.
End Calls.

(** A flag is 0 or 1. *)
Definition is_flag (f : Z) : Prop := f = 0%Z \/ f = 1%Z.

(** The three sample buffers hold the same number of samples. *)
Definition buffers_aligned (ea : electrical_analytics) : Prop :=
  length (el_current_ph1_samples ea) = length (el_current_ph2_samples ea)
  /\ length (el_current_ph2_samples ea) = length (el_current_ph3_samples ea).

(** The three sample buffers, without the totals. *)
Definition samples_of (ea : electrical_analytics) : list Q * list Q * list Q :=
  (el_current_ph1_samples ea, el_current_ph2_samples ea, el_current_ph3_samples ea).



(** The sample at the [peak_number]-th peak of a buffer, counting from 1. *)
Definition nth_peak_sample (samples : list Q) (height : Q) (peak_number : Z) : Q :=
  at_index samples (nth (Z.to_nat (peak_number - 1)) (find_peaks samples height) 0%nat).

(* ================================================================= *)
(** ** air_valve_anomaly_detect_zscore/src/script.py: [OpcHandlerAnalytics] *)

(** The detectors the handler creates.  [air_valve_dict] holds references to
    the four travel-time detectors, so a call through the dictionary is a call
    on the attribute: the dictionary is modelled by the key of each attribute. *)
Record valve_handler : Type := mkValveHandler {
  sensor_analytics : detector;
  air_valve_extend_cmd : detector;
  air_valve_extend : detector;
  air_valve_retract_cmd : detector;
  air_valve_retract : detector
}.

Inductive valve_unit : Type :=
| ExtendCmd | Extend | RetractCmd | Retract.

Definition air_valve_dict : list (string * valve_unit) :=
  [ ("ExtendCmdTime", ExtendCmd);
    ("ExtendTime", Extend);
    ("RetractCmdTime", RetractCmd);
    ("RetractTime", Retract) ]%string.

(** [d[key]] on a dictionary with string keys: the value, or [KeyError]. *)
Inductive lookup_result (A : Type) : Type :=
| Found (a : A)
| KeyError (key : string).
Arguments Found {A} a.
Arguments KeyError {A} key.

Fixpoint dict_get {A} (key : string) (d : list (string * A)) : option A :=
  match d with
  | [] => None
  | (k, v) :: rest => if String.eqb key k then Some v else dict_get key rest
  end.

(** [OpcHandlerAnalytics(server_url)], as far as the analytics go. *)
Definition new_valve_handler (model_window_size anomaly_list_size : Z) : valve_handler :=
  let mk n := new_detector n model_window_size anomaly_list_size in
  mkValveHandler
    (mk "sensor_analytics"%string)
    (mk "AirValveExtendCmd"%string)
    (mk "AirValveExtend"%string)
    (mk "AirValveRetractCmd"%string)
    (mk "AirValveRetract"%string).

Definition get_valve (u : valve_unit) (h : valve_handler) : detector :=
  match u with
  | ExtendCmd => air_valve_extend_cmd h
  | Extend => air_valve_extend h
  | RetractCmd => air_valve_retract_cmd h
  | Retract => air_valve_retract h
  end.

Definition set_valve (u : valve_unit) (d : detector) (h : valve_handler) : valve_handler :=
  match u with
  | ExtendCmd =>
      mkValveHandler (sensor_analytics h) d (air_valve_extend h)
        (air_valve_retract_cmd h) (air_valve_retract h)
  | Extend =>
      mkValveHandler (sensor_analytics h) (air_valve_extend_cmd h) d
        (air_valve_retract_cmd h) (air_valve_retract h)
  | RetractCmd =>
      mkValveHandler (sensor_analytics h) (air_valve_extend_cmd h) (air_valve_extend h)
        d (air_valve_retract h)
  | Retract =>
      mkValveHandler (sensor_analytics h) (air_valve_extend_cmd h) (air_valve_extend h)
        (air_valve_retract_cmd h) d
  end.

(** A method call on one of the four travel-time detectors. *)
Definition on_valve {A} (u : valve_unit) (m : M detector A) : M valve_handler A :=
  fun h =>
    match m (get_valve u h) with
    | (r, d, l) => (r, set_valve u d h, l)
    end.

(** The tuple [time_type_analytics] returns; the names are those of the local
    variables of the source. *)
Record valve_statistics : Type := mkValveStatistics {
  vs_anomaly : Z;
  vs_anomaly_ratio : Q;
  vs_model_avg : Q;
  vs_z_score : Q;
  vs_z_score_thresh : Q
}.

Section AirValve.
Context {float_sqrt : FloatSqrt}.

(** [time_type_analytics(time_type, time_value)].  The dictionary access is
    the first statement: an unknown key raises [KeyError] before anything is
    done. *)
Definition time_type_analytics (z_score_threshold : Q) (time_type : string)
    (time_value : pyvalue) (h : valve_handler)
  : lookup_result (outcome valve_statistics * valve_handler * list log_event) :=
  match dict_get time_type air_valve_dict with
  | None => KeyError time_type
  | Some obj =>
      Found
        ((on_valve obj (set_z_score_thresh z_score_threshold) ;;
          on_valve obj (check_if_anomaly AirValve time_value) ;;
          on_valve obj calculate_anomaly_ratio ;;
          anomaly <- read (fun h => anomaly (get_valve obj h)) ;;
          anomaly_ratio <- read (fun h => anomaly_ratio (get_valve obj h)) ;;
          model_avg <- read (fun h => model_avg (get_valve obj h)) ;;
          z_score <- read (fun h => model_std_dev (get_valve obj h)) ;;
          z_score_thresh <- read (fun h => z_score_thresh (get_valve obj h)) ;;
          ret (mkValveStatistics anomaly anomaly_ratio model_avg z_score
                 z_score_thresh))%monad h)
  end.

(** One turn of the loop of [read_values], after the node has been read: a
    reading with a new time stamp for its time type goes through
    [time_type_analytics] (the write to the database is commented out in the
    source); the time stamp is stored either way. *)
Definition valve_read_values_step (z_score_threshold : Q) (time_type : string)
    (time_value : pyvalue) (timestamp : Z) (seen : list (string * Z))
    (h : valve_handler)
  : lookup_result (valve_handler * list log_event * list (string * Z)) :=
  let seen' := (time_type, timestamp) :: seen in
  let new_data :=
    match dict_get time_type seen with
    | Some t => negb (t =? timestamp)%Z
    | None => true
    end in
  if new_data then
    match time_type_analytics z_score_threshold time_type time_value h with
    | KeyError k => KeyError k
    | Found (_, h', l) => Found (h', l, seen')
    end
  else Found (h, [], seen').
End AirValve.

(* ================================================================= *)
(** ** single_signal_anomaly_detect_zscore/src/script.py: [OpcHandlerAnalytics] *)





Section SingleSignal.
Context {float_sqrt : FloatSqrt}.


End SingleSignal.

(** The invariant of the ratio side of a detector: the flag and the buffered
    flags are 0 or 1, the buffer is within its capacity, and the ratio is a
    fraction. *)
Definition flags_sane (d : detector) : Prop :=
  is_flag (anomaly d)
  /\ Forall is_flag (anomaly_list d)
  /\ (len (anomaly_list d) <= Z.max 0 (anomaly_list_size d))%Z
  /\ 0 <= anomaly_ratio d
  /\ anomaly_ratio d <= 1.

(** Every run of [m] relates the state it starts from to the state it ends
    in, whether it returns or raises. *)
Definition respects {S A} (R : S -> S -> Prop) (m : M S A) : Prop :=
  forall s, R s (exec m s).

(** What a step may do to the sample buffers: leave them, or empty them. *)
Definition kept_or_cleared (h h' : handler) : Prop :=
  samples_of (electrical h') = samples_of (electrical h)
  \/ samples_of (electrical h') = ([], [], []).

Section NormalRuns.
Context {float_sqrt : FloatSqrt}.
Variable V : variant.

(** Every call of the sequence classifies its value, and as normal: nothing
    is logged and the flag is 0 after the call. *)
Fixpoint all_normal (values : list pyvalue) (d : detector) : Prop :=
  match values with
  | [] => True
  | v :: rest =>
      logs_of (check_if_anomaly V v) d = []
      /\ anomaly (exec (check_if_anomaly V v) d) = 0%Z
      /\ all_normal rest (exec (check_if_anomaly V v) d)
  end.
End NormalRuns.


(* ================================================================= *)
(** * Properties *)

(** Unfolding the monad down to pairs. *)
Ltac unfold_monad :=
  unfold result_of, exec, logs_of, try_except, bind, ret, raise, lift, get,
    modify, log, read in *.

(** Case analysis on the first test or call the computation is stuck on. *)
Ltac case_step :=
  match goal with
  | |- context [match ?x with _ => _ end] =>
      lazymatch x with
      | context [match _ with _ => _ end] => fail
      | _ => destruct x eqn:?
      end
  | |- context [if ?x then _ else _] =>
      lazymatch x with
      | context [if _ then _ else _] => fail
      | _ => destruct x eqn:?
      end
  end.

(* ----------------------------------------------------------------- *)
(** ** The threshold setter and [reset_algorithm] *)


Lemma set_z_score_thresh_zero (d : detector) (v : Q) :
  v == 0 ->
  set_z_score_thresh v d = (Ok tt, with_z_score_thresh 2 d, [LogThresholdZero]).
Proof.
  intros E. unfold set_z_score_thresh.
  apply Qeq_bool_iff in E. rewrite E. reflexivity.
Qed.

Lemma set_z_score_thresh_nonzero (d : detector) (v : Q) :
  ~ v == 0 ->
  set_z_score_thresh v d = (Ok tt, with_z_score_thresh v d, []).
Proof.
  intros N. unfold set_z_score_thresh.
  destruct (Qeq_bool v 0) eqn:E; [|reflexivity].
  apply Qeq_bool_iff in E. contradiction.
Qed.

(** C7.  Setting the threshold to 0 (any representation of zero) stores 2.0
    and logs the message; setting it to any other value, negative ones
    included, stores that very value and logs nothing; either way the stored
    threshold is not 0 after the call, and no other attribute changes. *)
Theorem z_score_thresh_setter (d : detector) (v : Q) :
  (v == 0 ->
     z_score_thresh (exec (set_z_score_thresh v) d) = 2
     /\ logs_of (set_z_score_thresh v) d = [LogThresholdZero])
  /\ (~ v == 0 ->
     z_score_thresh (exec (set_z_score_thresh v) d) = v
     /\ logs_of (set_z_score_thresh v) d = [])
  /\ ~ z_score_thresh (exec (set_z_score_thresh v) d) == 0
  /\ result_of (set_z_score_thresh v) d = Ok tt
  /\ exec (set_z_score_thresh v) d
     = with_z_score_thresh (z_score_thresh (exec (set_z_score_thresh v) d)) d.
Proof.
  unfold exec, logs_of, result_of.
  destruct (Qeq_dec v 0) as [E | N].
  - rewrite (set_z_score_thresh_zero d E). cbn.
    repeat split; try reflexivity; try contradiction.
    intros H. discriminate H.
  - rewrite (set_z_score_thresh_nonzero d N). cbn.
    repeat split; try reflexivity; try contradiction; assumption.
Qed.

Lemma z_score_thresh_setter_witness :
  z_score_thresh (exec (set_z_score_thresh 0) (new_detector "s" 3 3)) = 2
  /\ z_score_thresh (exec (set_z_score_thresh (-3 # 2)) (new_detector "s" 3 3)) = -3 # 2.
Proof.
  split.
  - apply (z_score_thresh_setter (new_detector "s" 3 3) 0). reflexivity.
  - apply (z_score_thresh_setter (new_detector "s" 3 3) (-3 # 2)).
    intros H. discriminate H.
Defined.

(** C10.  [reset_algorithm] empties [model_data] and [anomaly_list], puts
    [anomaly_ratio], [anomaly], [model_avg], [model_std_dev] and [z_score] back
    to the values [__init__] gives them, and leaves [z_score_thresh], [name]
    and the two sizes as they were: the state is the one of a new detector
    of the same name and sizes, except for the threshold, which survives.  The
    call neither raises nor logs. *)
Theorem reset_algorithm_frame (d : detector) :
  reset_algorithm d =
  (Ok tt,
   {| model_data := [];
      model_size := model_size d;
      anomaly_list := [];
      anomaly_list_size := anomaly_list_size d;
      anomaly_ratio := 0;
      anomaly := 0%Z;
      model_avg := 0;
      model_std_dev := 0;
      z_score := 0;
      z_score_thresh := z_score_thresh d;
      name := name d |},
   [])
  /\ exec reset_algorithm d
     = with_z_score_thresh (z_score_thresh d)
         (new_detector (name d) (model_size d) (anomaly_list_size d)).
Proof. split; reflexivity. Qed.

(* ----------------------------------------------------------------- *)
(** ** [check_if_anomaly], branch by branch *)

Lemma len_app_one {A} (l : list A) (x : A) : len (l ++ [x]) = (len l + 1)%Z.
Proof.
  unfold len. rewrite length_app. cbn. lia.
Qed.

Lemma mean_ok_nonempty `{FloatSqrt} (data : list pyvalue) (m : Q) :
  mean data = Ok m -> data <> [].
Proof.
  intros E ->. discriminate E.
Qed.

Section DetectorProperties.
Context {float_sqrt : FloatSqrt}.
Variable V : variant.

(** The four ways a call can go.  The call always returns normally.
    - model not complete: the value is appended, nothing else changes;
    - an exception inside the [try]: it is logged, and the state is the
      old one except for [model_avg] and [model_std_dev], which keep what
      was assigned before the failing statement;
    - anomaly: the statistics and the z-score are stored, the flag is 1 and
      the window is untouched;
    - no anomaly: the same, with flag 0, the oldest value dropped and the new
      one appended. *)
Lemma check_if_anomaly_cases (d : detector) (v : pyvalue) :
  exists d' l,
    check_if_anomaly V v d = (Ok tt, d', l)
    /\ ((is_model_complete d = false
         /\ d' = with_model_data (model_data d ++ [v]) d /\ l = [])
        \/ (is_model_complete d = true
            /\ exists e a s,
                l = [LogAnomalyFailed (name d) e]
                /\ d' = with_model_std_dev s (with_model_avg a d))
        \/ (is_model_complete d = true /\ l = []
            /\ exists a s z,
                d' = with_anomaly 1%Z
                       (with_z_score z (with_model_std_dev s (with_model_avg a d)))
                /\ Qgt_bool (Qabs z) (z_score_thresh d) = true)
        \/ (is_model_complete d = true /\ l = []
            /\ exists a s z x rest,
                model_data d = x :: rest
                /\ d' = with_anomaly 0%Z
                          (with_model_data (rest ++ [v])
                             (with_z_score z
                                (with_model_std_dev s (with_model_avg a d))))
                /\ Qgt_bool (Qabs z) (z_score_thresh d) = false)).
Proof.
  unfold check_if_anomaly. unfold_monad. cbv beta iota.
  destruct (is_model_complete d) eqn:C; cbv beta iota.
  2:{ do 2 eexists. split; [reflexivity|]. left. auto. }
  repeat case_step;
    cbn [model_data model_avg model_std_dev z_score z_score_thresh anomaly name
         with_model_avg with_model_std_dev with_z_score with_anomaly
         with_model_data app] in *;
    do 2 eexists; (split; [reflexivity|]); right.
  all: try (match goal with
            | H : pop0 (model_data ?d0) = Raise _, M : mean (model_data ?d0) = Ok _ |- _ =>
                exfalso; apply mean_ok_nonempty in M;
                destruct (model_data d0); [congruence | discriminate H]
            end).
  all: try (match goal with
            | H : Qgt_bool _ _ = true |- _ =>
                right; left; split; [reflexivity|]; split; [reflexivity|];
                do 3 eexists; split; [|exact H]; destruct d; reflexivity
            end).
  all: try (match goal with
            | H : Qgt_bool _ _ = false, P : pop0 (model_data ?d0) = Ok ?r |- _ =>
                right; right; split; [reflexivity|]; split; [reflexivity|];
                destruct (model_data d0) as [|x0 rest0] eqn:D; [discriminate P|];
                injection P as <-;
                do 3 eexists; exists x0, rest0;
                split; [reflexivity|]; split; [|exact H];
                destruct d0; cbn in *; subst; reflexivity
            end).
  all: left; split; [reflexivity|]; destruct d;
    unfold with_model_std_dev, with_model_avg; cbn;
    do 3 eexists; split; reflexivity.
Qed.
End DetectorProperties.

Lemma Qgt_bool_true_iff (a b : Q) : Qgt_bool a b = true <-> b < a.
Proof.
  unfold Qgt_bool. rewrite negb_true_iff.
  split; intros H.
  - apply Qnot_le_lt. intros L. apply Qle_bool_iff in L. congruence.
  - destruct (Qle_bool a b) eqn:E; [|reflexivity].
    apply Qle_bool_iff in E. exfalso. exact (Qlt_not_le _ _ H E).
Qed.

Lemma Qgt_bool_false_iff (a b : Q) : Qgt_bool a b = false <-> a <= b.
Proof.
  unfold Qgt_bool. rewrite negb_false_iff. apply Qle_bool_iff.
Qed.

Lemma with_model_data_same (d : detector) :
  with_model_data (model_data d) d = d.
Proof. destruct d; reflexivity. Qed.

Section BuildingPhase.
Context {float_sqrt : FloatSqrt}.
Variable V : variant.

Lemma check_if_anomaly_building (d : detector) (v : pyvalue) :
  is_model_complete d = false ->
  check_if_anomaly V v d = (Ok tt, with_model_data (model_data d ++ [v]) d, []).
Proof.
  intros C. unfold check_if_anomaly. unfold_monad. cbv beta iota.
  rewrite C. reflexivity.
Qed.

Lemma incomplete_when_room (d : detector) :
  (len (model_data d) < model_size d)%Z -> is_model_complete d = false.
Proof.
  intros H. unfold is_model_complete. apply Z.eqb_neq. lia.
Qed.

(** As long as the values fit, a run of calls only extends the window. *)
Lemma feed_building (values : list pyvalue) :
  forall d,
    (len (model_data d) + len values <= model_size d)%Z ->
    feed V values d = with_model_data (model_data d ++ values) d.
Proof.
  induction values as [|v rest IH]; intros d H.
  - cbn. rewrite app_nil_r. symmetry. apply with_model_data_same.
  - cbn [feed]. unfold exec.
    assert (R : (len (v :: rest) = 1 + len rest)%Z) by (unfold len; cbn [length]; lia).
    rewrite check_if_anomaly_building
      by (apply incomplete_when_room; unfold len in *; lia).
    cbn [fst snd]. rewrite IH.
    + cbn [model_data with_model_data]. rewrite <- app_assoc. reflexivity.
    + cbn [model_data with_model_data model_size].
      rewrite len_app_one. lia.
Qed.

(** C8.  On a new detector of capacity [N], a call made after fewer than
    [N] earlier calls (that is, each of the first [N] calls) finds the model
    incomplete, returns normally without logging, and only appends its value:
    the state is the new detector with the values received so far as window,
    so [anomaly], [z_score], [model_avg] and [model_std_dev] still have their
    initial values, whatever the values are.  After the [N]-th call the model
    is complete: the first call that classifies is the [(N+1)]-th. *)
Theorem first_calls_build_model (nm : string) (N M : Z)
    (earlier : list pyvalue) (v : pyvalue) :
  (len earlier < N)%Z ->
  let fresh := new_detector nm N M in
  feed V earlier fresh = with_model_data earlier fresh
  /\ is_model_complete (feed V earlier fresh) = false
  /\ check_if_anomaly V v (feed V earlier fresh)
     = (Ok tt, with_model_data (earlier ++ [v]) fresh, [])
  /\ is_model_complete (feed V (earlier ++ [v]) fresh)
     = (len earlier + 1 =? N)%Z.
Proof.
  intros H fresh.
  assert (F : feed V earlier fresh = with_model_data earlier fresh).
  { rewrite feed_building; [reflexivity|]. cbn. lia. }
  assert (C : is_model_complete (feed V earlier fresh) = false).
  { rewrite F. apply incomplete_when_room. cbn. exact H. }
  repeat split.
  - exact F.
  - exact C.
  - rewrite (check_if_anomaly_building _ v C). rewrite F. reflexivity.
  - rewrite feed_building.
    + unfold is_model_complete. cbn. rewrite len_app_one. reflexivity.
    + cbn. rewrite len_app_one. lia.
Qed.
End BuildingPhase.

Lemma first_calls_build_model_witness :
  check_if_anomaly (float_sqrt := sqrt_15_digits) Electrical (Num 7)
    (feed (float_sqrt := sqrt_15_digits) Electrical [Num 5; NonNum "abc"]
       (new_detector "s" 3 3))
  = (Ok tt,
     with_model_data [Num 5; NonNum "abc"; Num 7] (new_detector "s" 3 3), []).
Proof.
  apply (@first_calls_build_model sqrt_15_digits Electrical "s"%string 3%Z 3%Z
           [Num 5; NonNum "abc"] (Num 7)).
  reflexivity.
Defined.

(* ----------------------------------------------------------------- *)
(** ** The size of the window *)

Section WindowSize.
Context {float_sqrt : FloatSqrt}.
Variable V : variant.

Lemma check_if_anomaly_model_size (d : detector) (v : pyvalue) :
  model_size (exec (check_if_anomaly V v) d) = model_size d.
Proof.
  unfold exec.
  destruct (check_if_anomaly_cases V d v) as (d' & l & E & H). rewrite E. cbn.
  destruct H as [(_ & -> & _) | [(_ & e & a & s & _ & ->)
    | [(_ & _ & a & s & z & -> & _) | (_ & _ & a & s & z & x & rest & _ & -> & _)]]];
    reflexivity.
Qed.

Lemma check_if_anomaly_len_full (d : detector) (v : pyvalue) :
  len (model_data d) = model_size d ->
  len (model_data (exec (check_if_anomaly V v) d)) = model_size d.
Proof.
  intros F. unfold exec.
  destruct (check_if_anomaly_cases V d v) as (d' & l & E & H). rewrite E. cbn.
  destruct H as [(C & _ & _) | [(_ & e & a & s & _ & ->)
    | [(_ & _ & a & s & z & -> & _) | (_ & _ & a & s & z & x & rest & D & -> & _)]]].
  - unfold is_model_complete in C. apply Z.eqb_neq in C. contradiction.
  - exact F.
  - exact F.
  - cbn. rewrite len_app_one. rewrite D in F. unfold len in *. cbn in F. lia.
Qed.

Lemma check_if_anomaly_window_bounded (d : detector) (v : pyvalue) :
  window_bounded d -> window_bounded (exec (check_if_anomaly V v) d).
Proof.
  unfold window_bounded. intros B.
  rewrite check_if_anomaly_model_size.
  destruct (Z.eq_dec (len (model_data d)) (model_size d)) as [F | NF].
  - rewrite check_if_anomaly_len_full by exact F. lia.
  - unfold exec. rewrite check_if_anomaly_building.
    + cbn. rewrite len_app_one. lia.
    + unfold is_model_complete. apply Z.eqb_neq. exact NF.
Qed.

Lemma feed_app (xs ys : list pyvalue) (d : detector) :
  feed V (xs ++ ys) d = feed V ys (feed V xs d).
Proof.
  revert d. induction xs as [|x xs IH]; intros d; cbn; [reflexivity | apply IH].
Qed.

Lemma feed_model_size (values : list pyvalue) (d : detector) :
  model_size (feed V values d) = model_size d.
Proof.
  revert d. induction values as [|v rest IH]; intros d; cbn; [reflexivity|].
  rewrite IH. apply check_if_anomaly_model_size.
Qed.

Lemma feed_window_bounded (values : list pyvalue) (d : detector) :
  window_bounded d -> window_bounded (feed V values d).
Proof.
  revert d. induction values as [|v rest IH]; intros d B; cbn; [exact B|].
  apply IH. apply check_if_anomaly_window_bounded. exact B.
Qed.

Lemma feed_len_full (values : list pyvalue) (d : detector) :
  len (model_data d) = model_size d ->
  len (model_data (feed V values d)) = model_size d.
Proof.
  revert d. induction values as [|v rest IH]; intros d F; cbn; [exact F|].
  rewrite IH.
  - apply check_if_anomaly_model_size.
  - rewrite check_if_anomaly_model_size. apply check_if_anomaly_len_full. exact F.
Qed.

(** C5.  For a capacity [N >= 0]: the window of a new detector has at most
    [N] elements; a [check_if_anomaly] call keeps [len(model_data) <=
    model_size] and never changes [model_size]; a call on a full window
    leaves it full.  Hence after any sequence of calls on a new detector the
    window has at most [N] elements, and once it has [N] it has exactly [N]
    after any number of further calls. *)
Theorem window_size_invariant :
  (forall nm N M, (0 <= N)%Z -> window_bounded (new_detector nm N M))
  /\ (forall d v,
        window_bounded d -> window_bounded (exec (check_if_anomaly V v) d))
  /\ (forall d v, model_size (exec (check_if_anomaly V v) d) = model_size d)
  /\ (forall d v,
        len (model_data d) = model_size d ->
        len (model_data (exec (check_if_anomaly V v) d)) = model_size d)
  /\ (forall nm N M calls,
        (0 <= N)%Z ->
        (len (model_data (feed V calls (new_detector nm N M))) <= N)%Z)
  /\ (forall nm N M calls later,
        len (model_data (feed V calls (new_detector nm N M))) = N ->
        len (model_data (feed V (calls ++ later) (new_detector nm N M))) = N).
Proof.
  split; [|split; [|split; [|split; [|split]]]].
  - intros nm N M H. unfold window_bounded. cbn. exact H.
  - apply check_if_anomaly_window_bounded.
  - apply check_if_anomaly_model_size.
  - apply check_if_anomaly_len_full.
  - intros nm N M calls H.
    assert (B : window_bounded (feed V calls (new_detector nm N M))).
    { apply feed_window_bounded. unfold window_bounded. cbn. exact H. }
    unfold window_bounded in B. rewrite feed_model_size in B. exact B.
  - intros nm N M calls later F.
    rewrite feed_app. rewrite feed_len_full.
    + apply feed_model_size.
    + rewrite feed_model_size. exact F.
Qed.
End WindowSize.

Lemma window_size_invariant_witness :
  window_bounded (new_detector "s" 3 3)
  /\ window_bounded
       (exec (check_if_anomaly (float_sqrt := sqrt_15_digits) Electrical (Num 4))
          (new_detector "s" 3 3))
  /\ len (model_data
            (feed (float_sqrt := sqrt_15_digits) Electrical
               ([Num 1; Num 2; Num 3] ++ [Num 2; Num 50])
               (new_detector "s" 3 3))) = 3%Z.
Proof.
  destruct (@window_size_invariant sqrt_15_digits Electrical)
    as (I & P & _ & _ & _ & F).
  assert (B : window_bounded (new_detector "s" 3 3)) by (apply I; lia).
  split; [exact B|]. split.
  - apply P. exact B.
  - apply F. reflexivity.
Defined.

(* ----------------------------------------------------------------- *)
(** ** Failures inside [check_if_anomaly] *)

Section Failures.
Context {float_sqrt : FloatSqrt}.
Variable V : variant.

(** C3, as the code has it.  [check_if_anomaly] never raises to its
    caller.  When a statement inside the [try] raises, the exception is
    logged once with the name of the unit, and [model_data], [z_score],
    [anomaly], the ratio buffer, the threshold, the sizes and the name are
    as before the call; [model_avg] and [model_std_dev] are not restored:
    they keep what was assigned before the failing statement. *)
Theorem check_if_anomaly_failure_contained (d : detector) (v : pyvalue) :
  let d' := exec (check_if_anomaly V v) d in
  result_of (check_if_anomaly V v) d = Ok tt
  /\ (logs_of (check_if_anomaly V v) d = []
      \/ exists e,
          logs_of (check_if_anomaly V v) d = [LogAnomalyFailed (name d) e]
          /\ model_data d' = model_data d
          /\ z_score d' = z_score d
          /\ anomaly d' = anomaly d
          /\ d' = with_model_std_dev (model_std_dev d')
                    (with_model_avg (model_avg d') d)).
Proof.
  unfold result_of, logs_of, exec.
  destruct (check_if_anomaly_cases V d v) as (d' & l & E & H). rewrite E. cbn.
  split; [reflexivity|].
  destruct H as [(_ & _ & ->) | [(_ & e & a & s & -> & ->)
    | [(_ & -> & _) | (_ & -> & _)]]]; auto.
  right. exists e. destruct d; cbn. repeat split; reflexivity.
Qed.
(** The failure the specification names: a value that is not a number, on a
    complete model whose window does have a mean and a standard deviation.
    [abs(value)] raises after both statistics have been stored. *)
Lemma non_numeric_value_on_complete_model (d : detector) (repr : string) (m s : Q) :
  is_model_complete d = true ->
  mean (model_data d) = Ok m ->
  stdev (model_data d) = Ok s ->
  check_if_anomaly V (NonNum repr) d
  = (Ok tt,
     with_model_std_dev (if Qeq_bool (Qabs s) 0 then 1 # 1000 else Qabs s)
       (with_model_avg (round_avg V (Qabs m)) d),
     [LogAnomalyFailed (name d) TypeError]).
Proof.
  intros C Em Es. unfold check_if_anomaly. unfold_monad. cbv beta iota.
  rewrite C. cbv beta iota. rewrite Em. cbv beta iota.
  cbn [model_data with_model_avg]. rewrite Es. cbv beta iota.
  cbn [model_std_dev with_model_std_dev].
  destruct (Qeq_bool (Qabs s) 0); destruct d; reflexivity.
Qed.
End Failures.

(** C3, the counterexample.  A detector of capacity 3 whose window is
    [[1, 1, 1]] receives the string ["abc"]: [abs(value)] raises [TypeError]
    after [model_avg] and [model_std_dev] have been assigned; the exception
    is caught and logged, and the state differs from the one before the call
    ([model_avg] went from 0.0 to 1, [model_std_dev] from 0.0 to 0.001). *)
Lemma check_if_anomaly_failure_mutates :
  let d := feed (float_sqrt := sqrt_15_digits) Electrical [Num 1; Num 1; Num 1]
             (new_detector "s" 3 3) in
  let call := check_if_anomaly (float_sqrt := sqrt_15_digits) Electrical (NonNum "abc") in
  is_model_complete d = true
  /\ result_of call d = Ok tt
  /\ logs_of call d = [LogAnomalyFailed "s" TypeError]
  /\ model_avg d = 0 /\ model_avg (exec call d) == 1
  /\ model_std_dev d = 0 /\ model_std_dev (exec call d) == 1 # 1000
  /\ exec call d <> d.
Proof.
  cbv zeta.
  repeat split; try (vm_compute; reflexivity).
  intros H.
  apply (f_equal model_avg) in H. vm_compute in H. discriminate H.
Qed.

(* ----------------------------------------------------------------- *)
(** ** Classification on a full window *)

Section Classification.
Context {float_sqrt : FloatSqrt}.
Variable V : variant.

(** A call on a complete model that classifies its value as an anomaly
    leaves the window alone and sets the flag. *)
Lemma anomaly_keeps_window (d : detector) (v : pyvalue) :
  let d' := exec (check_if_anomaly V v) d in
  is_model_complete d = true ->
  logs_of (check_if_anomaly V v) d = [] ->
  z_score_thresh d < Qabs (z_score d') ->
  model_data d' = model_data d /\ anomaly d' = 1%Z.
Proof.
  unfold logs_of, exec. cbv zeta.
  destruct (check_if_anomaly_cases V d v) as (d' & l & E & H). rewrite E. cbn.
  intros C L Z.
  destruct H as [(C' & _ & _) | [(_ & e & a & s & -> & _)
    | [(_ & _ & a & s & z & -> & _) | (_ & _ & a & s & z & x & rest & _ & -> & G)]]].
  - congruence.
  - discriminate L.
  - destruct d; cbn. split; reflexivity.
  - exfalso. apply Qgt_bool_false_iff in G.
    destruct d; cbn in *. exact (Qlt_not_le _ _ Z G).
Qed.

(** A call on a complete model that classifies its value as normal slides
    the window: the oldest value goes, the new one is appended. *)
Lemma normal_slides_window (d : detector) (v : pyvalue) :
  let d' := exec (check_if_anomaly V v) d in
  is_model_complete d = true ->
  logs_of (check_if_anomaly V v) d = [] ->
  Qabs (z_score d') <= z_score_thresh d ->
  model_data d' = tl (model_data d) ++ [v] /\ anomaly d' = 0%Z.
Proof.
  unfold logs_of, exec. cbv zeta.
  destruct (check_if_anomaly_cases V d v) as (d' & l & E & H). rewrite E. cbn.
  intros C L Z.
  destruct H as [(C' & _ & _) | [(_ & e & a & s & -> & _)
    | [(_ & _ & a & s & z & -> & G) | (_ & _ & a & s & z & x & rest & D & -> & _)]]].
  - congruence.
  - discriminate L.
  - exfalso. apply Qgt_bool_true_iff in G.
    destruct d; cbn in *. exact (Qlt_not_le _ _ G Z).
  - rewrite D. destruct d; cbn. split; reflexivity.
Qed.

(** The window [[1, 1, 1]]: mean 1, and a standard deviation that is the
    square root of 0. *)
Lemma mean_ones : mean [Num 1; Num 1; Num 1] = Ok ((1 + (1 + (1 + 0))) / inject_Z 3).
Proof. reflexivity. Qed.

Lemma stdev_ones :
  exists x, x == 0 /\ stdev [Num 1; Num 1; Num 1] = Ok (fsqrt x).
Proof.
  eexists. split; [|reflexivity]. vm_compute. reflexivity.
Qed.

(** C4.  On a complete model, a call that classifies its value as an
    anomaly (no failure, and the stored z-score exceeds the threshold in
    absolute value) does not modify the window and sets [anomaly] to 1.
    In particular, with a square root that maps 0 to 0, window [[1, 1, 1]],
    capacity 3 and threshold 2.0, the value 10 gives mean 1, standard
    deviation 0 replaced by 0.001, z-score 9000 and anomaly 1, and the window
    is still [[1, 1, 1]]. *)
Theorem anomalous_value_not_absorbed :
  (forall d v,
      let d' := exec (check_if_anomaly V v) d in
      is_model_complete d = true ->
      logs_of (check_if_anomaly V v) d = [] ->
      z_score_thresh d < Qabs (z_score d') ->
      model_data d' = model_data d /\ anomaly d' = 1%Z)
  /\ ((forall x, x == 0 -> fsqrt x == 0) ->
      forall d,
        model_data d = [Num 1; Num 1; Num 1] ->
        model_size d = 3%Z ->
        z_score_thresh d = 2 ->
        let d' := exec (check_if_anomaly V (Num 10)) d in
        logs_of (check_if_anomaly V (Num 10)) d = []
        /\ model_avg d' == 1
        /\ model_std_dev d' == 1 # 1000
        /\ z_score d' == 9000
        /\ anomaly d' = 1%Z
        /\ model_data d' = [Num 1; Num 1; Num 1]).
Proof.
  split; [exact anomaly_keeps_window|].
  intros S0 d D N T. cbv zeta.
  destruct stdev_ones as (x & X0 & SD).
  assert (Z0 : Qeq_bool (Qabs (fsqrt x)) 0 = true).
  { apply Qeq_bool_iff. rewrite (S0 x X0). reflexivity. }
  destruct d; cbn in D, N, T; subst.
  unfold logs_of, exec, check_if_anomaly. unfold_monad.
  cbv beta iota.
  change (is_model_complete _) with true. cbv beta iota.
  cbn [model_data with_model_avg with_model_std_dev model_std_dev model_avg].
  rewrite mean_ones. cbv beta iota.
  cbn [model_data with_model_avg with_model_std_dev model_std_dev model_avg].
  rewrite SD. cbv beta iota.
  cbn [model_data with_model_avg with_model_std_dev model_std_dev model_avg].
  rewrite Z0.
  destruct V; vm_compute; repeat split; reflexivity.
Qed.
End Classification.

Lemma sqrt_15_digits_zero (x : Q) : x == 0 -> sqrt_15_digits x == 0.
Proof.
  intros E. unfold sqrt_15_digits.
  assert (L : Qle_bool x 0 = true).
  { apply Qle_bool_iff. rewrite E. apply Qle_refl. }
  rewrite L. reflexivity.
Qed.

Lemma anomalous_value_not_absorbed_witness :
  let d := exec (set_z_score_thresh 2)
             (feed (float_sqrt := sqrt_15_digits) SingleSignal
                [Num 1; Num 1; Num 1] (new_detector "s" 3 3)) in
  let d' := exec (check_if_anomaly (float_sqrt := sqrt_15_digits) SingleSignal (Num 10)) d in
  (model_data d' = model_data d /\ anomaly d' = 1%Z)
  /\ (z_score d' == 9000 /\ model_data d' = [Num 1; Num 1; Num 1]).
Proof.
  cbv zeta.
  destruct (@anomalous_value_not_absorbed sqrt_15_digits SingleSignal) as (G & C).
  split.
  - apply G.
    + reflexivity.
    + reflexivity.
    + vm_compute. reflexivity.
  - specialize (C sqrt_15_digits_zero
                  (exec (set_z_score_thresh 2)
                     (feed (float_sqrt := sqrt_15_digits) SingleSignal
                        [Num 1; Num 1; Num 1] (new_detector "s" 3 3)))
                  eq_refl eq_refl eq_refl).
    cbv zeta in C.
    destruct C as (_ & _ & _ & Z & _ & W). split; [exact Z | exact W].
Defined.

(** The companion case: window [[1, 2, 3]], threshold 5, value 2.  The value
    is normal, and the window slides to [[2, 3, 2]]. *)
Example normal_value_slides_window :
  let d := exec (set_z_score_thresh 5)
             (feed (float_sqrt := sqrt_15_digits) Electrical
                [Num 1; Num 2; Num 3] (new_detector "s" 3 3)) in
  let d' := exec (check_if_anomaly (float_sqrt := sqrt_15_digits) Electrical (Num 2)) d in
  anomaly d' = 0%Z /\ model_data d' = [Num 2; Num 3; Num 2] /\ model_avg d' == 2.
Proof.
  cbv zeta. repeat split.
Qed.

(* ----------------------------------------------------------------- *)
(** ** [reset_algorithm] and a new detector *)

Section Reset.
Context {float_sqrt : FloatSqrt}.
Variable V : variant.

Lemma observe_with_z_score_thresh (t : Q) (d : detector) :
  observe (with_z_score_thresh t d) = observe d.
Proof. reflexivity. Qed.

(** While the model is being built the threshold plays no part: two
    detectors that differ in it only go through the same observations. *)
Lemma trace_building_threshold (values : list pyvalue) :
  forall d t,
    (len (model_data d) + len values <= model_size d)%Z ->
    map observe (trace V values (with_z_score_thresh t d))
    = map observe (trace V values d).
Proof.
  induction values as [|v rest IH]; intros d t H; [reflexivity|].
  assert (R : (len (v :: rest) = 1 + len rest)%Z) by (unfold len; cbn [length]; lia).
  assert (C : is_model_complete d = false)
    by (apply incomplete_when_room; unfold len in *; lia).
  cbn [trace map]. unfold exec.
  rewrite (check_if_anomaly_building V d v C).
  rewrite (check_if_anomaly_building V (with_z_score_thresh t d) v C).
  cbn [fst snd].
  change (with_model_data (model_data (with_z_score_thresh t d) ++ [v])
            (with_z_score_thresh t d))
    with (with_z_score_thresh t (with_model_data (model_data d ++ [v]) d)).
  rewrite observe_with_z_score_thresh. f_equal.
  apply IH. cbn [model_data with_model_data model_size].
  rewrite len_app_one. lia.
Qed.

(** C9.  After [reset_algorithm] a detector is in the state of a new
    detector of the same name and sizes, apart from the threshold, which the
    reset keeps.  Up to [model_size] calls of [check_if_anomaly] after the
    reset produce, call by call, the same observations (window, completeness,
    anomaly flag, z-score, mean, standard deviation, ratio) as the same calls
    on that new detector; and with the threshold set to the same value on
    the new detector the two runs agree state by state, for any number of
    calls. *)
Theorem reset_then_rebuild (d : detector) (values : list pyvalue) :
  let fresh := new_detector (name d) (model_size d) (anomaly_list_size d) in
  ((len values <= model_size d)%Z ->
   map observe (trace V values (exec reset_algorithm d))
   = map observe (trace V values fresh))
  /\ trace V values (exec reset_algorithm d)
     = trace V values (with_z_score_thresh (z_score_thresh d) fresh).
Proof.
  cbv zeta. split.
  - intros H.
    change (exec reset_algorithm d)
      with (with_z_score_thresh (z_score_thresh d)
              (new_detector (name d) (model_size d) (anomaly_list_size d))).
    apply trace_building_threshold. cbn. lia.
  - reflexivity.
Qed.
End Reset.

Lemma reset_then_rebuild_witness :
  let used :=
    cycle (float_sqrt := sqrt_15_digits) AirValve (Num 10)
      (exec (set_z_score_thresh 2)
         (feed (float_sqrt := sqrt_15_digits) AirValve [Num 1; Num 1; Num 1]
            (new_detector "s" 3 3))) in
  map observe
    (trace (float_sqrt := sqrt_15_digits) AirValve [Num 4; Num 5; Num 6]
       (exec reset_algorithm used))
  = map observe
      (trace (float_sqrt := sqrt_15_digits) AirValve [Num 4; Num 5; Num 6]
         (new_detector "s" 3 3)).
Proof.
  cbv zeta.
  apply (@reset_then_rebuild sqrt_15_digits AirValve
           (cycle (float_sqrt := sqrt_15_digits) AirValve (Num 10)
              (exec (set_z_score_thresh 2)
                 (feed (float_sqrt := sqrt_15_digits) AirValve [Num 1; Num 1; Num 1]
                    (new_detector "s" 3 3))))
           [Num 4; Num 5; Num 6]).
  vm_compute. discriminate.
Defined.

(* ----------------------------------------------------------------- *)
(** ** [calculate_anomaly_ratio] *)

Lemma calculate_anomaly_ratio_incomplete (d : detector) :
  is_model_complete d = false ->
  calculate_anomaly_ratio d = (Ok tt, d, []).
Proof.
  intros C. unfold calculate_anomaly_ratio. unfold_monad. cbv beta iota.
  rewrite C. reflexivity.
Qed.

(** Below capacity the flag is appended and the ratio is not touched. *)
Lemma calculate_anomaly_ratio_filling (d : detector) :
  is_model_complete d = true ->
  (len (anomaly_list d) < anomaly_list_size d)%Z ->
  calculate_anomaly_ratio d
  = (Ok tt, with_anomaly_list (anomaly_list d ++ [anomaly d]) d, []).
Proof.
  intros C H. unfold calculate_anomaly_ratio. unfold_monad. cbv beta iota.
  rewrite C. cbv beta iota.
  apply Z.ltb_lt in H. rewrite H. reflexivity.
Qed.

(** At capacity the oldest flag goes, the new one is appended, and the ratio
    is recomputed over the new content. *)
Lemma calculate_anomaly_ratio_sliding (d : detector) (oldest : Z) (rest : list Z) :
  is_model_complete d = true ->
  anomaly_list d = oldest :: rest ->
  (anomaly_list_size d <= len (anomaly_list d))%Z ->
  (anomaly_list_size d <> 0)%Z ->
  calculate_anomaly_ratio d
  = (Ok tt,
     with_anomaly_ratio
       (round_ndigits
          (inject_Z (Zsum (rest ++ [anomaly d])) / inject_Z (anomaly_list_size d)) 3)
       (with_anomaly_list (rest ++ [anomaly d]) d),
     []).
Proof.
  intros C L H NZ. unfold calculate_anomaly_ratio. unfold_monad. cbv beta iota.
  rewrite C. cbv beta iota.
  assert (F : (len (anomaly_list d) <? anomaly_list_size d)%Z = false)
    by (apply Z.ltb_ge; exact H).
  rewrite F. rewrite L. cbn [pop0].
  cbn [anomaly_list anomaly anomaly_list_size with_anomaly_list].
  unfold true_divide.
  assert (E : Qeq_bool (inject_Z (anomaly_list_size d)) 0 = false).
  { destruct (Qeq_bool (inject_Z (anomaly_list_size d)) 0) eqn:E; [|reflexivity].
    apply Qeq_bool_iff in E. unfold Qeq in E. cbn in E. lia. }
  rewrite E. reflexivity.
Qed.






(* ----------------------------------------------------------------- *)
(** ** Current asymmetry *)









(* ----------------------------------------------------------------- *)
(** ** Reasoning about runs that return *)

Lemma returns_ret {S A} (a : A) (s : S) (P : A -> S -> Prop) :
  P a s -> returns (ret a) s P.
Proof. intros H. exists a, s, []. split; [reflexivity | exact H]. Qed.

Lemma returns_bind {S A B} (m : M S A) (k : A -> M S B) (s : S)
    (P : A -> S -> Prop) (Q : B -> S -> Prop) :
  returns m s P ->
  (forall a s', P a s' -> returns (k a) s' Q) ->
  returns (bind m k) s Q.
Proof.
  intros (a & s1 & l1 & E & HP) K.
  destruct (K a s1 HP) as (b & s2 & l2 & E2 & HQ).
  exists b, s2, (l1 ++ l2). unfold bind. rewrite E, E2. split; [reflexivity | exact HQ].
Qed.


Lemma returns_modify {S} (f : S -> S) (s : S) (P : unit -> S -> Prop) :
  P tt (f s) -> returns (modify f) s P.
Proof. intros H. exists tt, (f s), []. split; [reflexivity | exact H]. Qed.

Lemma returns_read {S A} (f : S -> A) (s : S) (P : A -> S -> Prop) :
  P (f s) s -> returns (read f) s P.
Proof. intros H. exists (f s), s, []. split; [reflexivity | exact H]. Qed.

Lemma returns_get {S} (s : S) (P : S -> S -> Prop) :
  P s s -> returns get s P.
Proof. intros H. exists s, s, []. split; [reflexivity | exact H]. Qed.

Lemma returns_log {S} (ev : log_event) (s : S) (P : unit -> S -> Prop) :
  P tt s -> returns (log ev) s P.
Proof. intros H. exists tt, s, [ev]. split; [reflexivity | exact H]. Qed.

Lemma returns_lift {S A} (o : outcome A) (a : A) (s : S) (P : A -> S -> Prop) :
  o = Ok a -> P a s -> returns (lift o) s P.
Proof. intros -> H. exists a, s, []. split; [reflexivity | exact H]. Qed.

Lemma returns_result {S A} (m : M S A) (s : S) (a : A) :
  returns m s (fun x _ => x = a) -> result_of m s = Ok a.
Proof.
  intros (x & s1 & l1 & E & ->). unfold result_of. rewrite E. reflexivity.
Qed.

Lemma returns_bind_lift {S A B} (o : outcome A) (a : A) (k : A -> M S B) (s : S)
    (Q : B -> S -> Prop) :
  o = Ok a -> returns (k a) s Q -> returns (bind (lift o) k) s Q.
Proof.
  intros -> (b & s2 & l2 & E & HQ). exists b, s2, ([] ++ l2).
  unfold bind, lift. rewrite E. split; [reflexivity | exact HQ].
Qed.





(** A method call on a detector that returns, returns on the handler and
    touches that detector only. *)
Lemma returns_on_unit {A} (id : unit_id) (m : M detector A) (h : handler) :
  returns m (get_unit id h) (fun _ _ => True) ->
  returns (on_unit id m) h (fun _ h' => electrical h' = electrical h).
Proof.
  intros (a & d & l & E & _). exists a, (set_unit id d h), l.
  unfold on_unit. rewrite E. split; [reflexivity|]. destruct id; reflexivity.
Qed.

Section DetectorReturns.
Context {float_sqrt : FloatSqrt}.

Lemma check_if_anomaly_returns (V : variant) (v : pyvalue) (d : detector) :
returns (check_if_anomaly V v) d (fun _ _ => True).
Proof.
destruct (check_if_anomaly_cases V d v) as (d' & l & E & _).
exists tt, d', l. split; [exact E | exact I].
Qed.

Lemma calculate_anomaly_ratio_returns (d : detector) :
returns calculate_anomaly_ratio d (fun _ _ => True).
Proof.
unfold calculate_anomaly_ratio, returns, try_except.
match goal with |- context [match ?b d with _ => _ end] => destruct (b d) as [[[[]|e] s1] l1] end.
- do 3 eexists. split; [reflexivity | exact I].
- unfold_monad. do 3 eexists. split; [reflexivity | exact I].
Qed.

Lemma set_z_score_thresh_returns (t : Q) (d : detector) :
returns (set_z_score_thresh t) d (fun _ _ => True).
Proof.
unfold set_z_score_thresh. destruct (Qeq_bool t 0); unfold_monad;
  do 3 eexists; (split; [reflexivity | exact I]).
Qed.
End DetectorReturns.

(* ----------------------------------------------------------------- *)
(** ** Peak indices and indexing *)

Lemma plateau_end_bounds (x : list Q) (xi : Q) (i_max fuel : nat) :
  forall i_ahead,
    (i_ahead <= plateau_end x xi i_max fuel i_ahead
     /\ plateau_end x xi i_max fuel i_ahead <= Nat.max i_ahead i_max)%nat.
Proof.
  induction fuel as [|fuel IH]; intros i_ahead; cbn [plateau_end]; [lia|].
  destruct (i_ahead <? i_max)%nat eqn:L; cbn [andb]; [|lia].
  destruct (Qeq_bool (at_index x i_ahead) xi); [|lia].
  apply Nat.ltb_lt in L. specialize (IH (S i_ahead)). lia.
Qed.

Lemma local_maxima_loop_bound (x : list Q) (i_max fuel : nat) :
  forall i p, In p (local_maxima_loop x i_max fuel i) -> (p < i_max)%nat.
Proof.
  induction fuel as [|fuel IH]; intros i p H; cbn [local_maxima_loop] in H; [contradiction|].
  destruct (i <? i_max)%nat eqn:L; [|contradiction].
  apply Nat.ltb_lt in L.
  destruct (Qlt_bool (at_index x (i - 1)) (at_index x i)); [|exact (IH _ _ H)].
  cbv zeta in H.
  pose proof (plateau_end_bounds x (at_index x i) i_max (length x) (i + 1)) as B.
  destruct (Qlt_bool (at_index x (plateau_end x (at_index x i) i_max (length x) (i + 1)))
              (at_index x i)); [|exact (IH _ _ H)].
  destruct H as [<- | H]; [|exact (IH _ _ H)].
  apply Nat.Div0.div_lt_upper_bound. lia.
Qed.

Lemma find_peaks_bound (x : list Q) (height : Q) (p : nat) :
  In p (find_peaks x height) -> (p < length x)%nat.
Proof.
  unfold find_peaks, local_maxima_1d. intros H.
  apply filter_In in H. destruct H as [H _].
  apply local_maxima_loop_bound in H. lia.
Qed.

Lemma py_index_in_range {A} (l : list A) (k : Z) :
  (0 <= k < len l)%Z ->
  exists a, py_index l k = Ok a /\ nth_error l (Z.to_nat k) = Some a.
Proof.
  intros H. unfold py_index.
  assert (N : (k <? 0)%Z = false) by (apply Z.ltb_ge; lia). rewrite N.
  assert (R : ((0 <=? k) && (k <? len l))%Z = true).
  { apply andb_true_iff. split; [apply Z.leb_le | apply Z.ltb_lt]; lia. }
  rewrite R.
  destruct (nth_error l (Z.to_nat k)) as [a|] eqn:E.
  - exists a. split; reflexivity.
  - exfalso. apply nth_error_None in E. unfold len in H. lia.
Qed.

(* ----------------------------------------------------------------- *)
(** ** The inrush current and the finalize step *)

Lemma returns_on_unit_frame {A} (id : unit_id) (m : M detector A) (h : handler)
    (ea : electrical_analytics) :
  returns m (get_unit id h) (fun _ _ => True) ->
  electrical h = ea ->
  returns (on_unit id m) h (fun _ h' => electrical h' = ea).
Proof.
  intros R <-. apply returns_on_unit. exact R.
Qed.

Section Pipeline.
Context {float_sqrt : FloatSqrt}.











End Pipeline.


(** When every phase has enough peaks the finalize step does write a point:
    the same buffers with peak number 1. *)
Example finalize_cycle_writes_point :
  let c := mkConfig 1 3 2 3 3 in
  let r := mkReading "line" "machine" "pump" "Idle" false 1000 0 0 0 in
  let h := with_electrical
             (mkElectricalAnalytics
                [0; 0; 5; 0; 0; 8; 0] [0; 0; 5; 0; 0; 8; 0] [0; 5; 0] 0 0 0)
             (new_handler c) in
  exists p,
    result_of (process_reading (float_sqrt := sqrt_15_digits) c r) h = Ok (Some p)
    /\ In ("el_inrush_current_ph2"%string, FloatField (Finite (round_ndigits 5 4)))
         (fields p).
Proof.
  cbv zeta. eexists. split.
  - vm_compute. reflexivity.
  - vm_compute. do 17 right. left. reflexivity.
Qed.

(* ----------------------------------------------------------------- *)
(** ** The loops of the peak detection end before their fuel does *)

Lemma plateau_end_fuel (x : list Q) (xi : Q) (i_max : nat) :
  forall fuel fuel' i_ahead,
    (i_max - i_ahead <= fuel)%nat -> (fuel <= fuel')%nat ->
    plateau_end x xi i_max fuel' i_ahead = plateau_end x xi i_max fuel i_ahead.
Proof.
  induction fuel as [|fuel IH]; intros fuel' i_ahead H L.
  - destruct fuel' as [|fuel']; [reflexivity|]. cbn [plateau_end].
    assert (F : (i_ahead <? i_max)%nat = false) by (apply Nat.ltb_ge; lia).
    rewrite F. reflexivity.
  - destruct fuel' as [|fuel']; [lia|]. cbn [plateau_end].
    destruct ((i_ahead <? i_max)%nat && Qeq_bool (at_index x i_ahead) xi); [|reflexivity].
    apply IH; lia.
Qed.

Lemma local_maxima_loop_fuel (x : list Q) (i_max : nat) :
  forall fuel fuel' i,
    (i_max - i <= fuel)%nat -> (fuel <= fuel')%nat ->
    local_maxima_loop x i_max fuel' i = local_maxima_loop x i_max fuel i.
Proof.
  induction fuel as [|fuel IH]; intros fuel' i H L.
  - destruct fuel' as [|fuel']; [reflexivity|]. cbn [local_maxima_loop].
    assert (F : (i <? i_max)%nat = false) by (apply Nat.ltb_ge; lia).
    rewrite F. reflexivity.
  - destruct fuel' as [|fuel']; [lia|]. cbn [local_maxima_loop].
    destruct (i <? i_max)%nat; [|reflexivity].
    destruct (Qlt_bool (at_index x (i - 1)) (at_index x i)); [|apply IH; lia].
    cbv zeta.
    pose proof (plateau_end_bounds x (at_index x i) i_max (length x) (i + 1)) as B.
    destruct (Qlt_bool (at_index x (plateau_end x (at_index x i) i_max (length x) (i + 1)))
                (at_index x i)); [|apply IH; lia].
    f_equal. apply IH; lia.
Qed.

(** More fuel than the length of the array changes nothing: the walk of
    [local_maxima_1d] is complete. *)
Lemma local_maxima_1d_complete (x : list Q) (fuel : nat) :
  (length x <= fuel)%nat ->
  local_maxima_loop x (length x - 1) fuel 1 = local_maxima_1d x.
Proof.
  intros H. unfold local_maxima_1d. apply local_maxima_loop_fuel; lia.
Qed.

(* ================================================================= *)
(** * Further properties of the code *)

(* ----------------------------------------------------------------- *)
(** ** Rounding keeps integer bounds *)

Lemma round_half_even_bounds (x : Q) (a b : Z) :
  inject_Z a <= x -> x <= inject_Z b ->
  (a <= round_half_even x <= b)%Z.
Proof.
  intros La Lb.
  assert (Fa : (a <= Qfloor x)%Z).
  { rewrite <- (Qfloor_Z a). apply Qfloor_resp_le. exact La. }
  assert (Fb : (Qfloor x <= b)%Z).
  { rewrite <- (Qfloor_Z b). apply Qfloor_resp_le. exact Lb. }
  assert (Up : inject_Z (Qfloor x) < x -> (Qfloor x + 1 <= b)%Z).
  { intros G. destruct (Z.eq_dec (Qfloor x) b) as [E | N]; [|lia].
    exfalso. rewrite E in G. exact (Qlt_not_le _ _ G Lb). }
  unfold round_half_even. cbv zeta.
  destruct (Qcompare_spec (x - inject_Z (Qfloor x)) (1 # 2)) as [E | L | G].
  - destruct (Z.even (Qfloor x)); [lia|].
    split; [lia|]. apply Up. lra.
  - lia.
  - split; [lia|]. apply Up. lra.
Qed.

Lemma pow10_pos (n : nat) : (0 < pow10 n)%Z.
Proof. unfold pow10. apply Z.pow_pos_nonneg; lia. Qed.

Lemma inject_Z_pos (z : Z) : (0 < z)%Z -> 0 < inject_Z z.
Proof. intros H. unfold Qlt. cbn. lia. Qed.

(** [round(x, n)] of a number between 0 and 1 is between 0 and 1. *)
Lemma round_ndigits_unit_interval (x : Q) (n : nat) :
  0 <= x -> x <= 1 -> 0 <= round_ndigits x n /\ round_ndigits x n <= 1.
Proof.
  intros L0 L1. unfold round_ndigits.
  pose proof (inject_Z_pos (pow10_pos n)) as P.
  destruct (@round_half_even_bounds (x * inject_Z (pow10 n)) 0 (pow10 n)) as [R0 R1].
  - change (inject_Z 0) with 0. apply Qmult_le_0_compat; [exact L0 | apply Qlt_le_weak; exact P].
  - setoid_replace (inject_Z (pow10 n)) with (1 * inject_Z (pow10 n)) at 2 by ring.
    apply Qmult_le_compat_r; [exact L1 | apply Qlt_le_weak; exact P].
  - split.
    + apply Qle_shift_div_l; [exact P|]. rewrite Qmult_0_l.
      change 0 with (inject_Z 0). rewrite <- Zle_Qle. exact R0.
    + apply Qle_shift_div_r; [exact P|]. rewrite Qmult_1_l.
      rewrite <- Zle_Qle. exact R1.
Qed.

(* ----------------------------------------------------------------- *)
(** ** [calculate_anomaly_ratio], branch by branch *)

(** At capacity with an empty buffer (a capacity of 0 or less): [pop(0)]
    raises [IndexError], which is logged; nothing changes. *)
Lemma calculate_anomaly_ratio_empty (d : detector) :
  is_model_complete d = true ->
  anomaly_list d = [] ->
  (anomaly_list_size d <= 0)%Z ->
  calculate_anomaly_ratio d = (Ok tt, d, [LogRatioFailed (name d) IndexError]).
Proof.
  intros C L H. unfold calculate_anomaly_ratio. unfold_monad. cbv beta iota.
  rewrite C. cbv beta iota.
  assert (F : (len (anomaly_list d) <? anomaly_list_size d)%Z = false)
    by (apply Z.ltb_ge; rewrite L; unfold len; cbn; lia).
  rewrite F. cbv beta iota. rewrite L. reflexivity.
Qed.

(** The ways a call can go; it always returns normally. *)
Lemma calculate_anomaly_ratio_cases (d : detector) :
  exists d' l,
    calculate_anomaly_ratio d = (Ok tt, d', l)
    /\ ((d' = d /\ (l = [] \/ exists e, l = [LogRatioFailed (name d) e]))
        \/ (is_model_complete d = true
            /\ (len (anomaly_list d) < anomaly_list_size d)%Z
            /\ d' = with_anomaly_list (anomaly_list d ++ [anomaly d]) d /\ l = [])
        \/ (is_model_complete d = true
            /\ (0 < anomaly_list_size d <= len (anomaly_list d))%Z
            /\ l = []
            /\ exists oldest rest,
                anomaly_list d = oldest :: rest
                /\ d' = with_anomaly_ratio
                          (round_ndigits
                             (inject_Z (Zsum (rest ++ [anomaly d]))
                              / inject_Z (anomaly_list_size d)) 3)
                          (with_anomaly_list (rest ++ [anomaly d]) d))
        \/ (is_model_complete d = true
            /\ (anomaly_list_size d <= 0)%Z
            /\ anomaly_list d <> []
            /\ exists r fl, d' = with_anomaly_ratio r (with_anomaly_list fl d))).
Proof.
  destruct (is_model_complete d) eqn:C.
  2:{ exists d, []. split; [apply calculate_anomaly_ratio_incomplete; exact C|].
      left. auto. }
  destruct (Z_lt_le_dec (len (anomaly_list d)) (anomaly_list_size d)) as [L | G].
  { do 2 eexists. split; [apply calculate_anomaly_ratio_filling; assumption|].
    right. left. auto. }
  destruct (anomaly_list d) as [|oldest rest] eqn:E.
  { do 2 eexists. split.
    - apply calculate_anomaly_ratio_empty; [exact C | exact E |].
      unfold len in G. cbn in G. exact G.
    - left. split; [reflexivity|]. right. eexists. reflexivity. }
  destruct (Z_lt_le_dec 0 (anomaly_list_size d)) as [P | NP].
  { do 2 eexists. split.
    - apply (@calculate_anomaly_ratio_sliding d oldest rest); try assumption.
      + rewrite E. exact G.
      + lia.
    - right. right. left. split; [reflexivity|]. split; [lia|].
      split; [reflexivity|]. exists oldest, rest. split; reflexivity. }
  unfold calculate_anomaly_ratio. unfold_monad. cbv beta iota.
  rewrite C. cbv beta iota.
  assert (F : (len (anomaly_list d) <? anomaly_list_size d)%Z = false)
    by (apply Z.ltb_ge; rewrite E; exact G).
  rewrite F. cbv beta iota. rewrite E. cbn [pop0].
  cbn [anomaly_list anomaly anomaly_list_size with_anomaly_list name].
  destruct (true_divide (inject_Z (Zsum (rest ++ [anomaly d])))
              (inject_Z (anomaly_list_size d))) as [q | e] eqn:T;
    do 2 eexists; (split; [reflexivity|]); right; right; right;
    (split; [reflexivity|]); (split; [exact NP|]); (split; [discriminate|]).
  - exists (round_ndigits q 3), (rest ++ [anomaly d]). destruct d; reflexivity.
  - exists (anomaly_ratio d), (rest ++ [anomaly d]). destruct d; reflexivity.
Qed.

(* ----------------------------------------------------------------- *)
(** ** The two halves of a detector do not interfere *)

Section Independence.
Context {float_sqrt : FloatSqrt}.
Variable V : variant.

Lemma check_if_anomaly_frame (d : detector) (v : pyvalue) :
  let d' := exec (check_if_anomaly V v) d in
  anomaly_list d' = anomaly_list d
  /\ anomaly_ratio d' = anomaly_ratio d
  /\ anomaly_list_size d' = anomaly_list_size d
  /\ z_score_thresh d' = z_score_thresh d
  /\ name d' = name d
  /\ (anomaly d' = anomaly d \/ anomaly d' = 0%Z \/ anomaly d' = 1%Z).
Proof.
  unfold exec. cbv zeta.
  destruct (check_if_anomaly_cases V d v) as (d' & l & E & H). rewrite E. cbn [fst snd].
  destruct H as [(_ & -> & _) | [(_ & e & a & s & _ & ->)
    | [(_ & _ & a & s & z & -> & _) | (_ & _ & a & s & z & x & rest & _ & -> & _)]]];
    destruct d; cbn; repeat split; auto.
Qed.

Lemma calculate_anomaly_ratio_frame (d : detector) :
  let d' := exec calculate_anomaly_ratio d in
  d' = with_anomaly_ratio (anomaly_ratio d') (with_anomaly_list (anomaly_list d') d).
Proof.
  unfold exec. cbv zeta.
  destruct (calculate_anomaly_ratio_cases d) as (d' & l & E & H). rewrite E. cbn [fst snd].
  destruct H as [(-> & _) | [(_ & _ & -> & _)
    | [(_ & _ & _ & o & rest & _ & ->) | (_ & _ & _ & r & fl & ->)]]];
    destruct d; reflexivity.
Qed.

(** X1.  The window side and the ratio side of a detector are separate:
    [check_if_anomaly] never changes [anomaly_list] or [anomaly_ratio], and
    [calculate_anomaly_ratio] never raises and changes nothing but
    [anomaly_list] and [anomaly_ratio]: window, statistics, z-score, flag,
    threshold, sizes and name are as before.  On a model that is not complete
    it changes nothing at all and logs nothing: such a cycle contributes no
    flag. *)
Theorem detector_halves_independent (d : detector) (v : pyvalue) :
  (anomaly_list (exec (check_if_anomaly V v) d) = anomaly_list d
   /\ anomaly_ratio (exec (check_if_anomaly V v) d) = anomaly_ratio d)
  /\ result_of calculate_anomaly_ratio d = Ok tt
  /\ exec calculate_anomaly_ratio d
     = with_anomaly_ratio (anomaly_ratio (exec calculate_anomaly_ratio d))
         (with_anomaly_list (anomaly_list (exec calculate_anomaly_ratio d)) d)
  /\ (is_model_complete d = false ->
      calculate_anomaly_ratio d = (Ok tt, d, [])).
Proof.
  split; [|split; [|split]].
  - destruct (check_if_anomaly_frame d v) as (A & B & _). split; assumption.
  - unfold result_of.
    destruct (calculate_anomaly_ratio_cases d) as (d' & l & E & _). rewrite E. reflexivity.
  - apply calculate_anomaly_ratio_frame.
  - apply calculate_anomaly_ratio_incomplete.
Qed.
End Independence.

Lemma detector_halves_independent_witness :
  calculate_anomaly_ratio
    (feed (float_sqrt := sqrt_15_digits) Electrical [Num 1; Num 2] (new_detector "s" 3 3))
  = (Ok tt,
     feed (float_sqrt := sqrt_15_digits) Electrical [Num 1; Num 2] (new_detector "s" 3 3),
     []).
Proof.
  apply (@detector_halves_independent sqrt_15_digits Electrical
           (feed (float_sqrt := sqrt_15_digits) Electrical [Num 1; Num 2]
              (new_detector "s" 3 3))
           (Num 0)).
  reflexivity.
Defined.

(* ----------------------------------------------------------------- *)
(** ** Flags and ratio stay in range *)

Lemma Zsum_flags (l : list Z) :
  Forall is_flag l -> (0 <= Zsum l <= len l)%Z.
Proof.
  induction 1 as [|x l Hx _ IH]; unfold len in *; cbn [Zsum fold_right length].
  - cbn. lia.
  - fold (Zsum l). destruct Hx; subst; lia.
Qed.

Lemma ratio_of_flags_in_range (l : list Z) (size : Z) :
  Forall is_flag l -> (0 < size)%Z -> (len l <= size)%Z ->
  0 <= round_ndigits (inject_Z (Zsum l) / inject_Z size) 3
  /\ round_ndigits (inject_Z (Zsum l) / inject_Z size) 3 <= 1.
Proof.
  intros F P L. pose proof (Zsum_flags F) as [S0 S1].
  pose proof (inject_Z_pos P) as IP.
  apply round_ndigits_unit_interval.
  - apply Qle_shift_div_l; [exact IP|]. rewrite Qmult_0_l.
    change 0 with (inject_Z 0). rewrite <- Zle_Qle. exact S0.
  - apply Qle_shift_div_r; [exact IP|]. rewrite Qmult_1_l.
    rewrite <- Zle_Qle. lia.
Qed.

Lemma flags_sane_new (nm : string) (N M : Z) : flags_sane (new_detector nm N M).
Proof.
  unfold flags_sane, is_flag. cbn. repeat split; auto.
  - unfold len. cbn. lia.
  - apply Qle_refl.
  - discriminate.
Qed.

Lemma flags_sane_ratio (d : detector) :
  flags_sane d -> flags_sane (exec calculate_anomaly_ratio d).
Proof.
  intros (A & F & L & R0 & R1). unfold exec.
  destruct (calculate_anomaly_ratio_cases d) as (d' & l & E & H). rewrite E. cbn [fst snd].
  destruct H as [(-> & _) | [(_ & Lt & -> & _)
    | [(_ & (P & G) & _ & o & rest & EL & ->) | (_ & NP & NE & _)]]].
  - repeat split; assumption.
  - unfold flags_sane. destruct d; cbn in *. repeat split; try assumption.
    + apply Forall_app. split; [exact F | constructor; [exact A | constructor]].
    + rewrite len_app_one. lia.
  - assert (F' : Forall is_flag (rest ++ [anomaly d])).
    { rewrite EL in F. inversion F; subst.
      apply Forall_app. split; [assumption | constructor; [exact A | constructor]]. }
    assert (L' : (len (rest ++ [anomaly d]) <= anomaly_list_size d)%Z).
    { rewrite len_app_one. rewrite EL in L. unfold len in *. cbn [length] in L. lia. }
    destruct (ratio_of_flags_in_range F' P L') as [Q0 Q1].
    unfold flags_sane. destruct d; cbn in *. repeat split; try assumption. lia.
  - exfalso. destruct (anomaly_list d); [contradiction|].
    unfold len in L. cbn [length] in L. lia.
Qed.

Section FlagsInRange.
Context {float_sqrt : FloatSqrt}.
Variable V : variant.

Lemma flags_sane_check (d : detector) (v : pyvalue) :
  flags_sane d -> flags_sane (exec (check_if_anomaly V v) d).
Proof.
  intros (A & F & L & R0 & R1).
  destruct (check_if_anomaly_frame V d v) as (EL & ER & ES & _ & _ & EA).
  unfold flags_sane. rewrite EL, ER, ES. repeat split; try assumption.
  destruct EA as [-> | [-> | ->]]; [exact A | left; reflexivity | right; reflexivity].
Qed.

Lemma flags_sane_call (m : method) (d : detector) :
  flags_sane d -> flags_sane (exec (call V m) d).
Proof.
  intros H. destruct m as [t | | v |]; cbn [call].
  - destruct H as (A & F & L & R0 & R1). unfold exec, set_z_score_thresh.
    destruct (Qeq_bool t 0); unfold_monad; cbn; destruct d; cbn in *;
      repeat split; assumption.
  - apply (flags_sane_new (name d) (model_size d) (anomaly_list_size d)).
  - apply flags_sane_check. exact H.
  - apply flags_sane_ratio. exact H.
Qed.

Lemma flags_sane_run (calls : list method) (d : detector) :
  flags_sane d -> flags_sane (run V calls d).
Proof.
  revert d. induction calls as [|m rest IH]; intros d H; cbn [run]; [exact H|].
  apply IH. apply flags_sane_call. exact H.
Qed.

Lemma call_sizes (m : method) (d : detector) :
  let d' := exec (call V m) d in
  name d' = name d /\ model_size d' = model_size d
  /\ anomaly_list_size d' = anomaly_list_size d.
Proof.
  cbv zeta. destruct m as [t | | v |]; cbn [call].
  - unfold exec, set_z_score_thresh.
    destruct (Qeq_bool t 0); unfold_monad; cbn; destruct d; cbn; auto.
  - destruct d; cbn; auto.
  - destruct (check_if_anomaly_frame V d v) as (_ & _ & ES & _ & EN & _).
    rewrite check_if_anomaly_model_size. auto.
  - rewrite (calculate_anomaly_ratio_frame d). destruct d; cbn; auto.
Qed.

Lemma run_sizes (calls : list method) (d : detector) :
  let d' := run V calls d in
  name d' = name d /\ model_size d' = model_size d
  /\ anomaly_list_size d' = anomaly_list_size d.
Proof.
  cbv zeta. revert d. induction calls as [|m rest IH]; intros d; cbn [run]; [auto|].
  destruct (IH (exec (call V m) d)) as (A & B & C).
  destruct (call_sizes m d) as (A' & B' & C').
  rewrite A, B, C. auto.
Qed.

(** X2.  Whatever sequence of public method calls a new detector receives
    (threshold assignments, resets, classifications, ratio updates, in any
    order and with any values): the anomaly flag is 0 or 1, the ratio buffer
    holds only 0s and 1s and never more than [anomaly_list_size] of them, and
    the anomaly ratio lies between 0 and 1. *)
Theorem flags_and_ratio_in_range (nm : string) (N M : Z) (calls : list method) :
  let d := run V calls (new_detector nm N M) in
  is_flag (anomaly d)
  /\ Forall is_flag (anomaly_list d)
  /\ (len (anomaly_list d) <= Z.max 0 M)%Z
  /\ 0 <= anomaly_ratio d
  /\ anomaly_ratio d <= 1.
Proof.
  cbv zeta.
  pose proof (flags_sane_run calls (flags_sane_new nm N M)) as (A & F & L & R0 & R1).
  destruct (run_sizes calls (new_detector nm N M)) as (_ & _ & S).
  cbn in S. rewrite S in L. repeat split; assumption.
Qed.
End FlagsInRange.

Section NoRatioCapacity.
Context {float_sqrt : FloatSqrt}.
Variable V : variant.

Lemma no_capacity_call (m : method) (d : detector) :
  (anomaly_list_size d <= 0)%Z -> anomaly_list d = [] -> anomaly_ratio d = 0 ->
  anomaly_list (exec (call V m) d) = [] /\ anomaly_ratio (exec (call V m) d) = 0.
Proof.
  intros S L R. destruct m as [t | | v |]; cbn [call].
  - unfold exec, set_z_score_thresh.
    destruct (Qeq_bool t 0); unfold_monad; cbn; destruct d; cbn in *; auto.
  - destruct d; cbn; auto.
  - destruct (check_if_anomaly_frame V d v) as (EL & ER & _). rewrite EL, ER. auto.
  - unfold exec.
    destruct (calculate_anomaly_ratio_cases d) as (d' & l & E & H). rewrite E. cbn [fst snd].
    destruct H as [(-> & _) | [(_ & Lt & _)
      | [(_ & (P & _) & _) | (_ & _ & NE & _)]]]; auto.
    + exfalso. rewrite L in Lt. unfold len in Lt. cbn in Lt. lia.
    + exfalso. lia.
    + contradiction.
Qed.

(** X3.  With a ratio capacity of 0 or less the ratio is never computed: after
    any sequence of method calls on a new detector the buffer is empty and the
    ratio is still 0.0, and every [calculate_anomaly_ratio] on a complete model
    runs into [pop(0)] on the empty buffer, whose [IndexError] is caught and
    logged. *)
Theorem ratio_needs_positive_capacity (nm : string) (N M : Z) (calls : list method) :
  (M <= 0)%Z ->
  let d := run V calls (new_detector nm N M) in
  anomaly_list d = []
  /\ anomaly_ratio d = 0
  /\ (is_model_complete d = true ->
      calculate_anomaly_ratio d = (Ok tt, d, [LogRatioFailed nm IndexError])).
Proof.
  intros H. cbv zeta.
  assert (I : forall cs d,
             (anomaly_list_size d <= 0)%Z -> anomaly_list d = [] -> anomaly_ratio d = 0 ->
             anomaly_list (run V cs d) = [] /\ anomaly_ratio (run V cs d) = 0).
  { induction cs as [|m rest IH]; intros d S L R; cbn [run]; [auto|].
    destruct (no_capacity_call m d S L R) as (L' & R').
    destruct (call_sizes V m d) as (_ & _ & S').
    apply IH; [rewrite S'; exact S | exact L' | exact R']. }
  destruct (I calls (new_detector nm N M) H eq_refl eq_refl) as (L & R).
  destruct (run_sizes V calls (new_detector nm N M)) as (EN & _ & ES).
  cbn in EN, ES.
  split; [exact L|]. split; [exact R|].
  intros C.
  rewrite (@calculate_anomaly_ratio_empty (run V calls (new_detector nm N M)) C L)
    by (rewrite ES; exact H).
  rewrite EN. reflexivity.
Qed.
End NoRatioCapacity.

Lemma ratio_needs_positive_capacity_witness :
  let d := run (float_sqrt := sqrt_15_digits) SingleSignal
             [SetThreshold 2; CheckIfAnomaly (Num 1); CalculateAnomalyRatio;
              CheckIfAnomaly (Num 1); CalculateAnomalyRatio;
              CheckIfAnomaly (Num 9); CalculateAnomalyRatio]
             (new_detector "s" 2 0) in
  anomaly d = 1%Z /\ anomaly_list d = [] /\ anomaly_ratio d = 0.
Proof.
  cbv zeta. split; [reflexivity|].
  destruct (@ratio_needs_positive_capacity sqrt_15_digits SingleSignal "s"%string 2%Z 0%Z
              [SetThreshold 2; CheckIfAnomaly (Num 1); CalculateAnomalyRatio;
               CheckIfAnomaly (Num 1); CalculateAnomalyRatio;
               CheckIfAnomaly (Num 9); CalculateAnomalyRatio])
    as (L & R & _).
  - lia.
  - split; [exact L | exact R].
Defined.

(* ----------------------------------------------------------------- *)
(** ** [model_completeness] *)

Lemma trunc_of_quotient (a : Z) (p : positive) :
  (0 <= a)%Z ->
  true_divide (inject_Z a) (inject_Z (Zpos p)) = Ok (inject_Z a / inject_Z (Zpos p))
  /\ (Qnum (inject_Z a / inject_Z (Zpos p)) ÷ Zpos (Qden (inject_Z a / inject_Z (Zpos p)))
      = a / Zpos p)%Z.
Proof.
  intros H. split; [reflexivity|].
  unfold Qdiv, Qmult, Qinv, inject_Z. cbn [Qnum Qden].
  rewrite Z.mul_1_r. rewrite Pos.mul_1_l.
  apply Z.quot_div_nonneg; lia.
Qed.

(** X4.  [model_completeness] divides by [model_size]: with a capacity of 0
    it raises [ZeroDivisionError].  With a positive capacity and a window
    within it, it is the integer part of [100 * len(model_data) / model_size],
    between 0 and 100, and it is 100 exactly when the model is complete. *)
Theorem model_completeness_range (d : detector) :
  (model_size d = 0%Z -> model_completeness d = Raise ZeroDivisionError)
  /\ ((0 < model_size d)%Z -> window_bounded d ->
      model_completeness d = Ok (100 * len (model_data d) / model_size d)%Z
      /\ (0 <= 100 * len (model_data d) / model_size d <= 100)%Z
      /\ ((100 * len (model_data d) / model_size d = 100)%Z
          <-> is_model_complete d = true)).
Proof.
  split.
  - intros Z0. unfold model_completeness. rewrite Z0. reflexivity.
  - intros P B. unfold window_bounded in B.
    assert (L0 : (0 <= len (model_data d))%Z) by (unfold len; lia).
    split; [|split].
    + unfold model_completeness.
      destruct (model_size d) as [|p|p] eqn:E; try lia.
      destruct (@trunc_of_quotient (100 * len (model_data d)) p) as (T & Q); [lia|].
      rewrite T. rewrite Q. reflexivity.
    + split.
      * apply Z.div_pos; lia.
      * apply Z.div_le_upper_bound; nia.
    + unfold is_model_complete. rewrite Z.eqb_eq. split.
      * intros H.
        destruct (Z.eq_dec (len (model_data d)) (model_size d)) as [E | N]; [exact E|].
        exfalso.
        assert (100 * len (model_data d) / model_size d < 100)%Z
          by (apply Z.div_lt_upper_bound; nia).
        lia.
      * intros E. rewrite E. apply Z.div_mul. lia.
Qed.

Lemma model_completeness_range_witness :
  model_completeness
    (feed (float_sqrt := sqrt_15_digits) Electrical [Num 1; Num 2] (new_detector "s" 3 3))
  = Ok 66%Z
  /\ model_completeness (new_detector "s" 0 3) = Raise ZeroDivisionError.
Proof.
  split.
  - destruct (model_completeness_range
                (feed (float_sqrt := sqrt_15_digits) Electrical [Num 1; Num 2]
                   (new_detector "s" 3 3))) as (_ & H).
    destruct H as (E & _).
    + reflexivity.
    + unfold window_bounded. vm_compute. discriminate.
    + exact E.
  - apply (model_completeness_range (new_detector "s" 0 3)). reflexivity.
Defined.

(* ----------------------------------------------------------------- *)
(** ** Windows too small to classify, and windows that hold a non-number *)

Lemma numbers_non_number (data : list pyvalue) (repr : string) :
  In (NonNum repr) data -> numbers data = Raise TypeError.
Proof.
  induction data as [|x rest IH]; intros H; [contradiction|].
  destruct x as [q | r]; [|reflexivity].
  destruct H as [H | H]; [discriminate H|].
  cbn [numbers]. rewrite (IH H). reflexivity.
Qed.

Section DegenerateWindows.
Context {float_sqrt : FloatSqrt}.
Variable V : variant.

(** A complete model whose data has no mean: the call fails on its first
    statement and changes nothing. *)
Lemma check_if_anomaly_no_mean (d : detector) (v : pyvalue) (e : exn) :
  is_model_complete d = true ->
  mean (model_data d) = Raise e ->
  check_if_anomaly V v d = (Ok tt, d, [LogAnomalyFailed (name d) e]).
Proof.
  intros C E. unfold check_if_anomaly. unfold_monad. cbv beta iota.
  rewrite C. cbv beta iota. rewrite E. reflexivity.
Qed.

Lemma feed_fixed (d : detector) :
  (forall v, exec (check_if_anomaly V v) d = d) ->
  forall values, feed V values d = d.
Proof.
  intros H values. induction values as [|v rest IH]; cbn [feed]; [reflexivity|].
  rewrite H. exact IH.
Qed.

(** X5.  A non-number that got into the window while the model was being
    built (nothing checks the values appended then) blocks the detector once
    the model is complete: every later [check_if_anomaly], whatever its value,
    fails in [statistics.mean] with a [TypeError] that is caught and logged,
    and the state never changes again. *)
Theorem non_number_in_window_blocks_detector (d : detector) (repr : string) :
  is_model_complete d = true ->
  In (NonNum repr) (model_data d) ->
  (forall v,
      check_if_anomaly V v d = (Ok tt, d, [LogAnomalyFailed (name d) TypeError]))
  /\ (forall values, feed V values d = d).
Proof.
  intros C H.
  assert (E : mean (model_data d) = Raise TypeError).
  { unfold mean. rewrite (numbers_non_number _ _ H). reflexivity. }
  assert (K : forall v,
             check_if_anomaly V v d = (Ok tt, d, [LogAnomalyFailed (name d) TypeError])).
  { intros v. apply check_if_anomaly_no_mean; assumption. }
  split; [exact K|].
  apply feed_fixed. intros v. unfold exec. rewrite K. reflexivity.
Qed.

(** X6.  A capacity of 0 or 1 never classifies.  With capacity 0 the model is
    complete from the start and [statistics.mean] of the empty window raises:
    no call changes anything.  With capacity 1 the first value is kept for
    ever: every later call fails ([statistics.stdev] needs two data points),
    so after any number of calls the window is that first value, and [anomaly]
    and [z_score] still have their initial values; only [model_avg] may have
    been assigned. *)
Theorem tiny_capacity_never_classifies (nm : string) (M : Z) :
  (forall values, feed V values (new_detector nm 0 M) = new_detector nm 0 M)
  /\ (forall first values,
        exists a,
          feed V (first :: values) (new_detector nm 1 M)
          = with_model_avg a (with_model_data [first] (new_detector nm 1 M)))
  /\ (forall q a v,
        check_if_anomaly V v
          (with_model_avg a (with_model_data [Num q] (new_detector nm 1 M)))
        = (Ok tt,
           with_model_avg (round_avg V (Qabs ((q + 0) / inject_Z 1)))
             (with_model_data [Num q] (new_detector nm 1 M)),
           [LogAnomalyFailed nm StatisticsError])).
Proof.
  split; [|split].
  - apply feed_fixed. intros v. reflexivity.
  - intros first values. cbn [feed].
    change (exec (check_if_anomaly V first) (new_detector nm 1 M))
      with (with_model_avg 0 (with_model_data [first] (new_detector nm 1 M))).
    generalize 0 at 1. induction values as [|v rest IH]; intros a; cbn [feed].
    + exists a. reflexivity.
    + destruct first as [q | r].
      * change (exec (check_if_anomaly V v)
                  (with_model_avg a (with_model_data [Num q] (new_detector nm 1 M))))
          with (with_model_avg (round_avg V (Qabs ((q + 0) / inject_Z 1)))
                  (with_model_data [Num q] (new_detector nm 1 M))).
        apply IH.
      * change (exec (check_if_anomaly V v)
                  (with_model_avg a (with_model_data [NonNum r] (new_detector nm 1 M))))
          with (with_model_avg a (with_model_data [NonNum r] (new_detector nm 1 M))).
        apply IH.
  - intros q a v. reflexivity.
Qed.
End DegenerateWindows.

Lemma non_number_in_window_blocks_detector_witness :
  let d := feed (float_sqrt := sqrt_15_digits) AirValve
             [Num 5; NonNum "abc"; Num 7] (new_detector "s" 3 3) in
  check_if_anomaly (float_sqrt := sqrt_15_digits) AirValve (Num 6) d
  = (Ok tt, d, [LogAnomalyFailed "s" TypeError]).
Proof.
  cbv zeta.
  apply (@non_number_in_window_blocks_detector sqrt_15_digits AirValve
           (feed (float_sqrt := sqrt_15_digits) AirValve
              [Num 5; NonNum "abc"; Num 7] (new_detector "s" 3 3))
           "abc"%string).
  - reflexivity.
  - right. left. reflexivity.
Defined.

(* ----------------------------------------------------------------- *)
(** ** What the classification looks at *)

Lemma py_abs_opp (q : Q) : py_abs (Num (- q)) = py_abs (Num q).
Proof.
  destruct q as [n d]. unfold py_abs, Qabs, Qopp. cbn [Qnum Qden].
  rewrite Z.abs_opp. reflexivity.
Qed.

Section Magnitude.
Context {float_sqrt : FloatSqrt}.
Variable V : variant.

(** X7.  The classification looks at the magnitude of the value only
    ([abs(value)]): a value and its opposite give the same outcome, the same
    log, the same statistics, z-score and flag.  The window is the one place
    where they differ: when the value is appended, it is appended with its
    sign. *)
Theorem classification_ignores_sign (d : detector) (q : Q) :
  let d1 := exec (check_if_anomaly V (Num q)) d in
  let d2 := exec (check_if_anomaly V (Num (- q))) d in
  logs_of (check_if_anomaly V (Num (- q))) d = logs_of (check_if_anomaly V (Num q)) d
  /\ anomaly d2 = anomaly d1
  /\ z_score d2 = z_score d1
  /\ model_avg d2 = model_avg d1
  /\ model_std_dev d2 = model_std_dev d1
  /\ ((model_data d1 = model_data d /\ model_data d2 = model_data d)
      \/ exists kept,
          model_data d1 = kept ++ [Num q] /\ model_data d2 = kept ++ [Num (- q)]).
Proof.
  unfold logs_of, exec, check_if_anomaly. unfold_monad. cbv beta iota zeta.
  rewrite py_abs_opp.
  destruct (is_model_complete d); cbv beta iota.
  2:{ cbn. repeat split. right. eexists. split; reflexivity. }
  repeat case_step;
    cbn [fst snd model_data model_avg model_std_dev z_score z_score_thresh anomaly name
         with_model_avg with_model_std_dev with_z_score with_anomaly
         with_model_data app] in *;
    repeat split;
    first [ left; split; reflexivity
          | right; eexists; split; reflexivity ].
Qed.

Lemma check_if_anomaly_complete (d : detector) (v : pyvalue) :
  is_model_complete d = true ->
  is_model_complete (exec (check_if_anomaly V v) d) = true.
Proof.
  intros C. unfold is_model_complete in *. apply Z.eqb_eq in C. apply Z.eqb_eq.
  rewrite check_if_anomaly_model_size. apply check_if_anomaly_len_full. exact C.
Qed.


End Magnitude.


(* ----------------------------------------------------------------- *)
(** ** Relating the start and the end of a run *)

Section Respects.
Context {S : Type} (R : S -> S -> Prop).
Hypothesis R_refl : forall s, R s s.
Hypothesis R_trans : forall s1 s2 s3, R s1 s2 -> R s2 s3 -> R s1 s3.

Lemma respects_ret {A} (a : A) : respects R (ret a).
Proof. intros s. apply R_refl. Qed.

Lemma respects_read {A} (f : S -> A) : respects R (read f).
Proof. intros s. apply R_refl. Qed.

Lemma respects_get : respects R get.
Proof. intros s. apply R_refl. Qed.

Lemma respects_lift {A} (o : outcome A) : respects R (lift o).
Proof. intros s. apply R_refl. Qed.

Lemma respects_log (ev : log_event) : respects R (log ev).
Proof. intros s. apply R_refl. Qed.

Lemma respects_modify (f : S -> S) : (forall s, R s (f s)) -> respects R (modify f).
Proof. intros H s. apply H. Qed.

Lemma respects_bind {A B} (m : M S A) (k : A -> M S B) :
  respects R m -> (forall a, respects R (k a)) -> respects R (bind m k).
Proof.
  intros Hm Hk s. specialize (Hm s). unfold exec, bind in *.
  destruct (m s) as [[[a | e] s1] l1]; cbn [fst snd] in *; [|exact Hm].
  specialize (Hk a s1). unfold exec in Hk.
  destruct (k a s1) as [[r s2] l2]. cbn [fst snd] in *.
  exact (R_trans Hm Hk).
Qed.

Lemma respects_try_except {A} (body : M S A) (handler : exn -> M S A) :
  respects R body -> (forall e, respects R (handler e)) ->
  respects R (try_except body handler).
Proof.
  intros Hb Hh s. specialize (Hb s). unfold exec, try_except in *.
  destruct (body s) as [[[a | e] s1] l1]; cbn [fst snd] in *; [exact Hb|].
  specialize (Hh e s1). unfold exec in Hh.
  destruct (handler e s1) as [[r s2] l2]. cbn [fst snd] in *.
  exact (R_trans Hb Hh).
Qed.
End Respects.

(** A method call on a detector leaves the electrical data alone. *)
Lemma on_unit_electrical {A} (id : unit_id) (m : M detector A) (h : handler) :
  electrical (exec (on_unit id m) h) = electrical h.
Proof.
  unfold exec, on_unit. destruct (m (get_unit id h)) as [[r d] l]. cbn [fst snd].
  destruct id; reflexivity.
Qed.

Lemma kept_or_cleared_refl (h : handler) : kept_or_cleared h h.
Proof. left. reflexivity. Qed.

Lemma kept_or_cleared_trans (h1 h2 h3 : handler) :
  kept_or_cleared h1 h2 -> kept_or_cleared h2 h3 -> kept_or_cleared h1 h3.
Proof.
  unfold kept_or_cleared. intros [A | A] [B | B]; rewrite ?B, ?A; auto.
Qed.

Lemma on_unit_kept {A} (id : unit_id) (m : M detector A) :
  respects kept_or_cleared (on_unit id m).
Proof.
  intros h. left. rewrite on_unit_electrical. reflexivity.
Qed.

Ltac kept_step :=
  first
    [ apply respects_bind; [exact kept_or_cleared_trans | | intros ?]
    | apply on_unit_kept
    | apply respects_ret; exact kept_or_cleared_refl
    | apply respects_read; exact kept_or_cleared_refl
    | apply respects_get; exact kept_or_cleared_refl
    | apply respects_lift; exact kept_or_cleared_refl
    | apply respects_log; exact kept_or_cleared_refl
    | apply respects_try_except; [exact kept_or_cleared_trans | | intros ?] ].

Section Buffers.
Context {float_sqrt : FloatSqrt}.

Lemma calculate_integr_analytics_kept (s1 s2 s3 : list Q) (z : Q) :
  respects kept_or_cleared (calculate_integr_analytics s1 s2 s3 z).
Proof.
  unfold calculate_integr_analytics. cbv zeta. repeat kept_step.
Qed.

Lemma inrush_phase_kept (id : unit_id) (samples : list Q) (peaks : list nat)
    (z : Q) (peak_number : Z) :
  respects kept_or_cleared (inrush_phase id samples peaks z peak_number).
Proof.
  unfold inrush_phase.
  destruct ((0 <? len peaks)%Z && (peak_number <=? len peaks)%Z); repeat kept_step.
Qed.

Lemma calculate_inrush_kept (s1 s2 s3 : list Q) (z height : Q) (peak_number : Z) :
  respects kept_or_cleared
    (calculate_inrush_current_analytics s1 s2 s3 z height peak_number).
Proof.
  unfold calculate_inrush_current_analytics. cbv zeta.
  kept_step; [apply inrush_phase_kept|].
  kept_step; [apply inrush_phase_kept|].
  kept_step; [apply inrush_phase_kept|].
  repeat kept_step.
Qed.

Lemma finalize_cycle_kept (c : config) (r : reading) :
  respects kept_or_cleared (finalize_cycle c r).
Proof.
  unfold finalize_cycle.
  apply respects_bind; [exact kept_or_cleared_trans | kept_step | intros ea].
  apply respects_bind;
    [exact kept_or_cleared_trans | apply calculate_integr_analytics_kept
    | intros [[t1 t2] t3]].
  apply respects_bind; [exact kept_or_cleared_trans | | intros _].
  { apply respects_modify. intros h. left. reflexivity. }
  apply respects_bind; [exact kept_or_cleared_trans | kept_step | intros ea'].
  apply respects_bind; [exact kept_or_cleared_trans | kept_step | intros asym].
  apply respects_bind;
    [exact kept_or_cleared_trans | apply calculate_inrush_kept | intros [[i1 i2] i3]].
  apply respects_bind; [exact kept_or_cleared_trans | | intros written].
  { destruct (is_not_False i1 && is_not_False i2 && is_not_False i3);
      [destruct i1, i2, i3|]; repeat kept_step. }
  apply respects_bind; [exact kept_or_cleared_trans | | intros _].
  { apply respects_modify. intros h. right. reflexivity. }
  kept_step.
Qed.
End Buffers.

(* ----------------------------------------------------------------- *)
(** ** The sample buffers over the turns of [read_values] *)

Lemma buffers_aligned_of_samples (ea ea' : electrical_analytics) :
  samples_of ea' = samples_of ea -> buffers_aligned ea -> buffers_aligned ea'.
Proof.
  unfold samples_of, buffers_aligned. intros E. injection E as -> -> ->. auto.
Qed.

Lemma buffers_aligned_cleared (ea : electrical_analytics) :
  samples_of ea = ([], [], []) -> buffers_aligned ea.
Proof.
  unfold samples_of, buffers_aligned. intros E. injection E as -> -> ->. auto.
Qed.

Section SampleBuffers.
Context {float_sqrt : FloatSqrt}.

Lemma process_reading_idle_kept (c : config) (r : reading) :
  device_state r <> "Running"%string ->
  respects kept_or_cleared (process_reading c r).
Proof.
  intros N. apply String.eqb_neq in N. unfold process_reading. rewrite N.
  cbn [negb andb]. destruct (synch_pulse r).
  - intros h. right. reflexivity.
  - apply respects_bind; [exact kept_or_cleared_trans | kept_step | intros ea].
    destruct ((0 <? samples_number_ph1 ea)%Z && (0 <? samples_number_ph2 ea)%Z
              && (0 <? samples_number_ph3 ea)%Z).
    + apply finalize_cycle_kept.
    + kept_step.
Qed.

(** X9.  The sample buffers over one turn of the loop.  A reading taken
    while the device is "Running" appends exactly one sample to each of the
    three buffers, touches no detector and writes no point.  A reading with
    the device not running and the synchronisation pulse set empties the
    buffers, again without touching a detector.  Any other reading leaves the
    buffers as they are or empties them, also when the turn ends in an
    exception.  Hence the three buffers always hold the same number of
    samples. *)
Theorem sample_buffers_state_machine (c : config) (r : reading) (h : handler) :
  (device_state r = "Running"%string ->
   process_reading c r h
   = (Ok None,
      with_electrical
        (append_samples (el_current_phase1 r) (el_current_phase2 r)
           (el_current_phase3 r) (electrical h)) h,
      []))
  /\ (device_state r <> "Running"%string -> synch_pulse r = true ->
      process_reading c r h
      = (Ok None, with_electrical (clear_samples (electrical h)) h, []))
  /\ (device_state r <> "Running"%string ->
      kept_or_cleared h (exec (process_reading c r) h))
  /\ (buffers_aligned (electrical h) ->
      buffers_aligned (electrical (exec (process_reading c r) h)))
  /\ buffers_aligned (electrical (new_handler c)).
Proof.
  assert (Run : device_state r = "Running"%string ->
                process_reading c r h
                = (Ok None,
                   with_electrical
                     (append_samples (el_current_phase1 r) (el_current_phase2 r)
                        (el_current_phase3 r) (electrical h)) h,
                   [])).
  { intros E. unfold process_reading. rewrite E. reflexivity. }
  assert (Idle : device_state r <> "Running"%string ->
                 kept_or_cleared h (exec (process_reading c r) h)).
  { intros N. apply process_reading_idle_kept. exact N. }
  split; [exact Run|]. split; [|split; [exact Idle|split]].
  - intros N P. apply String.eqb_neq in N. unfold process_reading.
    rewrite N, P. reflexivity.
  - intros A. destruct (string_dec (device_state r) "Running") as [E | N].
    + unfold exec. rewrite (Run E). cbn [fst snd electrical with_electrical].
      destruct A as [A1 A2]. unfold buffers_aligned, append_samples. cbn.
      rewrite !length_app. cbn. lia.
    + destruct (Idle N) as [K | K].
      * exact (buffers_aligned_of_samples K A).
      * exact (buffers_aligned_cleared K).
  - split; reflexivity.
Qed.

End SampleBuffers.

Lemma sample_buffers_state_machine_witness :
  let c := mkConfig 1 3 2 3 3 in
  let r := mkReading "line" "machine" "pump" "Running" false 1000 (1 # 2) (3 # 2) (5 # 2) in
  samples_of
    (electrical (exec (process_reading (float_sqrt := sqrt_15_digits) c r) (new_handler c)))
  = ([1 # 2], [3 # 2], [5 # 2]).
Proof.
  cbv zeta. unfold exec.
  rewrite (proj1 (@sample_buffers_state_machine sqrt_15_digits
                    (mkConfig 1 3 2 3 3)
                    (mkReading "line" "machine" "pump" "Running" false 1000
                       (1 # 2) (3 # 2) (5 # 2))
                    (new_handler (mkConfig 1 3 2 3 3))) eq_refl).
  reflexivity.
Defined.


(* ----------------------------------------------------------------- *)
(** ** [calculate_integr_analytics], detector by detector *)

Lemma set_z_score_thresh_total (t : Q) (d : detector) :
  result_of (set_z_score_thresh t) d = Ok tt.
Proof.
  unfold result_of, set_z_score_thresh. destruct (Qeq_bool t 0); reflexivity.
Qed.

Lemma calculate_anomaly_ratio_total (d : detector) :
  result_of calculate_anomaly_ratio d = Ok tt.
Proof.
  unfold result_of.
  destruct (calculate_anomaly_ratio_cases d) as (d' & l & E & _). rewrite E. reflexivity.
Qed.

(** A call that returns on a detector, followed by the rest of the method:
    the rest runs on the handler with that detector updated. *)
Lemma bind_on_unit {A B} (id : unit_id) (m : M detector A) (a : A)
    (k : A -> M handler B) (h : handler) :
  result_of m (get_unit id h) = Ok a ->
  result_of (bind (on_unit id m) k) h
  = result_of (k a) (set_unit id (exec m (get_unit id h)) h)
  /\ exec (bind (on_unit id m) k) h
     = exec (k a) (set_unit id (exec m (get_unit id h)) h).
Proof.
  unfold result_of, exec, bind, on_unit. intros E.
  destruct (m (get_unit id h)) as [[r d] l]. cbn [fst snd] in *. subst r.
  destruct (k a (set_unit id d h)) as [[r2 s2] l2]. split; reflexivity.
Qed.

Section IntegralAnalytics.
Context {float_sqrt : FloatSqrt}.

Lemma check_if_anomaly_total (V : variant) (v : pyvalue) (d : detector) :
  result_of (check_if_anomaly V v) d = Ok tt.
Proof.
  unfold result_of.
  destruct (check_if_anomaly_cases V d v) as (d' & l & E & _). rewrite E. reflexivity.
Qed.

(** X11.  [calculate_integr_analytics] interleaves its calls over the three
    integral detectors (three threshold assignments, three classifications,
    three ratio updates); the outcome is the same as one complete cycle per
    detector: each integral detector goes through the threshold assignment,
    [check_if_anomaly] on the sum of its phase's samples and
    [calculate_anomaly_ratio].  The method returns the three sums, never
    raises, and leaves the three inrush detectors and the electrical data
    untouched. *)
Theorem calculate_integr_analytics_per_phase (s1 s2 s3 : list Q) (z : Q) (h : handler) :
  let one_cycle total d :=
    exec calculate_anomaly_ratio
      (exec (check_if_anomaly Electrical (Num total))
         (exec (set_z_score_thresh z) d)) in
  result_of (calculate_integr_analytics s1 s2 s3 z) h = Ok (Qsum s1, Qsum s2, Qsum s3)
  /\ exec (calculate_integr_analytics s1 s2 s3 z) h
     = mkHandler
         (one_cycle (Qsum s1) (el_current_integr_ph1_analytics h))
         (one_cycle (Qsum s2) (el_current_integr_ph2_analytics h))
         (one_cycle (Qsum s3) (el_current_integr_ph3_analytics h))
         (el_inrush_current_ph1_analytics h)
         (el_inrush_current_ph2_analytics h)
         (el_inrush_current_ph3_analytics h)
         (electrical h).
Proof.
  cbv zeta. unfold calculate_integr_analytics. cbv zeta.
  repeat
    match goal with
    | |- result_of (bind (on_unit ?id ?m) ?k) ?H = _
         /\ exec (bind (on_unit ?id ?m) ?k) ?H = _ =>
        destruct (@bind_on_unit _ _ id m tt k H) as [-> ->];
        [ first [ apply set_z_score_thresh_total
                | apply check_if_anomaly_total
                | apply calculate_anomaly_ratio_total ]
        | cbv beta ]
    end.
  destruct h; split; reflexivity.
Qed.
End IntegralAnalytics.

(* ----------------------------------------------------------------- *)
(** ** The inrush current that is selected *)

Lemma py_index_In {A} (l : list A) (k : Z) (a : A) :
  py_index l k = Ok a -> In a l.
Proof.
  unfold py_index. cbv zeta.
  destruct ((0 <=? (if (k <? 0)%Z then (len l + k)%Z else k))%Z
            && ((if (k <? 0)%Z then (len l + k)%Z else k) <? len l)%Z);
    [|discriminate].
  destruct (nth_error l (Z.to_nat (if (k <? 0)%Z then (len l + k)%Z else k))) eqn:E;
    [|discriminate].
  intros H. injection H as <-. eapply nth_error_In. exact E.
Qed.

Lemma py_index_last {A} (l : list A) (d : A) :
  l <> [] -> py_index l (-1) = Ok (last l d).
Proof.
  intros N. unfold py_index. cbv zeta.
  change (-1 <? 0)%Z with true. cbv iota.
  assert (P : (0 < len l)%Z).
  { destruct l; [contradiction|]. unfold len. cbn [length]. lia. }
  assert (R : ((0 <=? len l + -1) && (len l + -1 <? len l))%Z = true).
  { apply andb_true_iff. split; [apply Z.leb_le | apply Z.ltb_lt]; lia. }
  rewrite R.
  assert (E : Z.to_nat (len l + -1) = (length l - 1)%nat) by (unfold len; lia).
  rewrite E.
  destruct (exists_last N) as (front & x & ->).
  rewrite last_last, length_app. cbn [length].
  rewrite nth_error_app2 by lia.
  replace (length front + 1 - 1 - length front)%nat with 0%nat by lia.
  reflexivity.
Qed.

Lemma py_index_below {A} (l : list A) (k : Z) :
  (k < - len l)%Z -> py_index l k = @Raise A IndexError.
Proof.
  intros H. unfold py_index. cbv zeta.
  assert (L0 : (0 <= len l)%Z) by (unfold len; lia).
  assert (N : (k <? 0)%Z = true) by (apply Z.ltb_lt; lia). rewrite N.
  assert (R : (0 <=? len l + k)%Z = false) by (apply Z.leb_gt; lia).
  rewrite R. reflexivity.
Qed.

(** The sample under a peak. *)
Lemma peak_sample (samples : list Q) (height : Q) (p : nat) :
  In p (find_peaks samples height) ->
  py_index samples (Z.of_nat p) = Ok (at_index samples p)
  /\ height <= at_index samples p
  /\ In (at_index samples p) samples.
Proof.
  intros H. pose proof (find_peaks_bound _ _ _ H) as B.
  assert (E : nth_error samples p = Some (at_index samples p)).
  { unfold at_index. apply nth_error_nth'. exact B. }
  split; [|split].
  - destruct (@py_index_in_range _ samples (Z.of_nat p)) as (v & EV & NV);
      [unfold len; lia|].
    rewrite Nat2Z.id in NV. rewrite EV. congruence.
  - unfold find_peaks in H. apply filter_In in H. destruct H as [_ H].
    apply Qle_bool_iff. exact H.
  - eapply nth_error_In. exact E.
Qed.

Section InrushSelection.
Context {float_sqrt : FloatSqrt}.

(** A phase block whose test holds and whose two index operations succeed
    assigns the sample found and runs the cycle of its detector. *)
Lemma inrush_phase_selected (id : unit_id) (samples : list Q) (peaks : list nat)
    (z : Q) (peak_number : Z) (h : handler) (p : nat) (v : Q) :
  (0 < len peaks)%Z -> (peak_number <= len peaks)%Z ->
  py_index peaks (peak_number - 1) = Ok p ->
  py_index samples (Z.of_nat p) = Ok v ->
  returns (inrush_phase id samples peaks z peak_number) h
    (fun r h' => r = Some v /\ electrical h' = electrical h).
Proof.
  intros P L EP EV. unfold inrush_phase.
  assert (C : ((0 <? len peaks) && (peak_number <=? len peaks))%Z = true).
  { apply andb_true_iff. split; [apply Z.ltb_lt | apply Z.leb_le]; assumption. }
  rewrite C.
  apply (returns_bind_lift _ EP). apply (returns_bind_lift _ EV).
  eapply returns_bind;
    [apply returns_on_unit_frame; [apply set_z_score_thresh_returns | reflexivity]|].
  cbv beta. intros _ h1 E1.
  eapply returns_bind;
    [apply returns_on_unit_frame; [apply check_if_anomaly_returns | exact E1]|].
  cbv beta. intros _ h2 E2.
  eapply returns_bind;
    [apply returns_on_unit_frame; [apply calculate_anomaly_ratio_returns | exact E2]|].
  cbv beta. intros _ h3 E3.
  apply returns_ret. split; [reflexivity | exact E3].
Qed.

Lemma nth_peak (samples : list Q) (height : Q) (peak_number : Z) :
  (1 <= peak_number <= len (find_peaks samples height))%Z ->
  py_index (find_peaks samples height) (peak_number - 1)
  = Ok (nth (Z.to_nat (peak_number - 1)) (find_peaks samples height) 0%nat).
Proof.
  intros H.
  destruct (@py_index_in_range _ (find_peaks samples height) (peak_number - 1))
    as (p & EP & NP); [lia|].
  rewrite EP. f_equal. symmetry. apply nth_error_nth. exact NP.
Qed.

Lemma inrush_phase_nth_peak (id : unit_id) (samples : list Q) (height z : Q)
    (peak_number : Z) (h : handler) :
  (1 <= peak_number <= len (find_peaks samples height))%Z ->
  returns (inrush_phase id samples (find_peaks samples height) z peak_number) h
    (fun r h' =>
       r = Some (nth_peak_sample samples height peak_number)
       /\ electrical h' = electrical h).
Proof.
  intros H. pose proof (nth_peak samples height H) as EP.
  pose proof (py_index_In _ _ EP) as IN.
  destruct (peak_sample samples height _ IN) as (EV & _).
  eapply inrush_phase_selected; [lia | lia | exact EP | exact EV].
Qed.

Lemma calculate_inrush_available (s1 s2 s3 : list Q) (z height : Q)
    (peak_number : Z) (h : handler) :
  (1 <= peak_number)%Z ->
  (peak_number <= len (find_peaks s1 height))%Z ->
  (peak_number <= len (find_peaks s2 height))%Z ->
  (peak_number <= len (find_peaks s3 height))%Z ->
  returns (calculate_inrush_current_analytics s1 s2 s3 z height peak_number) h
    (fun r h' =>
       r = (Inrush (nth_peak_sample s1 height peak_number),
            Inrush (nth_peak_sample s2 height peak_number),
            Inrush (nth_peak_sample s3 height peak_number))
       /\ electrical h' = electrical h).
Proof.
  intros P L1 L2 L3. unfold calculate_inrush_current_analytics. cbv zeta.
  eapply returns_bind; [apply inrush_phase_nth_peak; lia|].
  cbv beta. intros o1 h1 (-> & E1).
  eapply returns_bind; [apply inrush_phase_nth_peak; lia|].
  cbv beta. intros o2 h2 (-> & E2).
  eapply returns_bind; [apply inrush_phase_nth_peak; lia|].
  cbv beta. intros o3 h3 (-> & E3).
  do 3 eexists. split; [reflexivity|]. split; [reflexivity | congruence].
Qed.

(** X12.  When every phase has at least [peak_number] peaks, for a peak
    number of 1 or more, [calculate_inrush_current_analytics] returns for each
    phase the sample at its [peak_number]-th peak, counted from 1 in the order
    of the samples.  That value is one of the samples of the phase and is at
    least [height_of_peak].  The electrical data are left as they are. *)
Theorem inrush_current_is_nth_peak (s1 s2 s3 : list Q) (z height : Q)
    (peak_number : Z) (h : handler) :
  (1 <= peak_number)%Z ->
  (peak_number <= len (find_peaks s1 height))%Z ->
  (peak_number <= len (find_peaks s2 height))%Z ->
  (peak_number <= len (find_peaks s3 height))%Z ->
  result_of (calculate_inrush_current_analytics s1 s2 s3 z height peak_number) h
  = Ok (Inrush (nth_peak_sample s1 height peak_number),
        Inrush (nth_peak_sample s2 height peak_number),
        Inrush (nth_peak_sample s3 height peak_number))
  /\ (forall s, In s [s1; s2; s3] ->
        height <= nth_peak_sample s height peak_number
        /\ In (nth_peak_sample s height peak_number) s)
  /\ electrical
       (exec (calculate_inrush_current_analytics s1 s2 s3 z height peak_number) h)
     = electrical h.
Proof.
  intros P L1 L2 L3.
  destruct (@calculate_inrush_available s1 s2 s3 z height peak_number h P L1 L2 L3)
    as (r & h' & l & E & -> & EE).
  unfold result_of, exec. rewrite E. cbn [fst snd].
  split; [reflexivity|]. split; [|exact EE].
  intros s IN.
  assert (L : (1 <= peak_number <= len (find_peaks s height))%Z).
  { destruct IN as [<- | [<- | [<- | []]]]; lia. }
  pose proof (py_index_In _ _ (nth_peak s height L)) as INP.
  destruct (peak_sample s height _ INP) as (_ & HE & HI).
  split; [exact HE | exact HI].
Qed.

(** X13.  A peak number of 0 or less is not refused.  With peak number 0 a
    phase that has peaks selects its last one (index -1).  With a peak number
    of minus the number of peaks of phase 1, or less, the index operation
    raises [IndexError] outside the [try] of the method: the exception leaves
    [calculate_inrush_current_analytics] before any detector is called. *)
Theorem non_positive_peak_number (s1 s2 s3 : list Q) (z height : Q)
    (peak_number : Z) (h : handler) (id : unit_id) :
  (find_peaks s1 height <> [] ->
   result_of (inrush_phase id s1 (find_peaks s1 height) z 0) h
   = Ok (Some (at_index s1 (last (find_peaks s1 height) 0%nat))))
  /\ ((0 < len (find_peaks s1 height))%Z ->
      (peak_number <= - len (find_peaks s1 height))%Z ->
      calculate_inrush_current_analytics s1 s2 s3 z height peak_number h
      = (Raise IndexError, h, [])).
Proof.
  split.
  - intros N.
    pose proof (py_index_last 0%nat N) as EP.
    pose proof (py_index_In _ _ EP) as IN.
    destruct (peak_sample s1 height _ IN) as (EV & _).
    assert (P : (0 < len (find_peaks s1 height))%Z).
    { destruct (find_peaks s1 height); [contradiction|]. unfold len. cbn [length]. lia. }
    destruct (@inrush_phase_selected id s1 (find_peaks s1 height) z 0 h _ _
                P ltac:(lia) EP EV) as (r & h' & l & E & -> & _).
    unfold result_of. rewrite E. reflexivity.
  - intros P L. unfold calculate_inrush_current_analytics. cbv zeta.
    unfold inrush_phase at 1.
    assert (C : ((0 <? len (find_peaks s1 height))
                 && (peak_number <=? len (find_peaks s1 height)))%Z = true).
    { apply andb_true_iff. split; [apply Z.ltb_lt | apply Z.leb_le]; lia. }
    rewrite C.
    rewrite (@py_index_below _ (find_peaks s1 height) (peak_number - 1)) by lia.
    reflexivity.
Qed.
End InrushSelection.

Lemma inrush_current_is_nth_peak_witness :
  result_of
    (calculate_inrush_current_analytics (float_sqrt := sqrt_15_digits)
       [0; 0; 5; 0; 0; 8; 0] [0; 4; 0; 9; 0] [0; 7; 7; 0; 6; 0] 2 3 2)
    (new_handler (mkConfig 2 3 2 3 3))
  = Ok (Inrush 8, Inrush 9, Inrush 6).
Proof.
  apply (@inrush_current_is_nth_peak sqrt_15_digits
           [0; 0; 5; 0; 0; 8; 0] [0; 4; 0; 9; 0] [0; 7; 7; 0; 6; 0] 2 3 2
           (new_handler (mkConfig 2 3 2 3 3))).
  - lia.
  - vm_compute. discriminate.
  - vm_compute. discriminate.
  - vm_compute. discriminate.
Defined.

Lemma non_positive_peak_number_witness :
  result_of
    (inrush_phase (float_sqrt := sqrt_15_digits) InrushPh1
       [0; 0; 5; 0; 0; 8; 0] (find_peaks [0; 0; 5; 0; 0; 8; 0] 3) 2 0)
    (new_handler (mkConfig 0 3 2 3 3))
  = Ok (Some 8)
  /\ calculate_inrush_current_analytics (float_sqrt := sqrt_15_digits)
       [0; 0; 5; 0; 0; 8; 0] [0; 0; 5; 0; 0; 8; 0] [0; 0; 5; 0; 0; 8; 0] 2 3 (-2)
       (new_handler (mkConfig (-2) 3 2 3 3))
     = (Raise IndexError, new_handler (mkConfig (-2) 3 2 3 3), []).
Proof.
  split.
  - apply (@non_positive_peak_number sqrt_15_digits
             [0; 0; 5; 0; 0; 8; 0] [] [] 2 3 0 (new_handler (mkConfig 0 3 2 3 3))
             InrushPh1).
    discriminate.
  - apply (@non_positive_peak_number sqrt_15_digits
             [0; 0; 5; 0; 0; 8; 0] [0; 0; 5; 0; 0; 8; 0] [0; 0; 5; 0; 0; 8; 0] 2 3 (-2)
             (new_handler (mkConfig (-2) 3 2 3 3)) InrushPh1).
    + vm_compute. reflexivity.
    + vm_compute. discriminate.
Defined.

(* ----------------------------------------------------------------- *)
(** ** The point of a completed cycle *)

Section WrittenPoint.
Context {float_sqrt : FloatSqrt}.



End WrittenPoint.


(* ----------------------------------------------------------------- *)
(** ** The cycle that completes the model *)

Section CompletingCycle.
Context {float_sqrt : FloatSqrt}.
Variable V : variant.

(** X15.  The cycle whose value completes the model already feeds the ratio
    buffer.  [check_if_anomaly] only appends that value, without classifying
    it; the model being complete afterwards, [calculate_anomaly_ratio] then
    records the flag left in [anomaly] by an earlier call (0 on a new
    detector), as if the value had been classified.  The cycles before it
    record nothing. *)
Theorem completing_cycle_records_flag (d : detector) (v : pyvalue) :
  ((len (model_data d) + 1 < model_size d)%Z ->
   cycle V v d = with_model_data (model_data d ++ [v]) d)
  /\ ((len (model_data d) + 1 = model_size d)%Z ->
      (len (anomaly_list d) < anomaly_list_size d)%Z ->
      cycle V v d
      = with_anomaly_list (anomaly_list d ++ [anomaly d])
          (with_model_data (model_data d ++ [v]) d)).
Proof.
  split.
  - intros H. unfold cycle, exec.
    rewrite check_if_anomaly_building by (apply incomplete_when_room; lia).
    cbn [fst snd].
    rewrite calculate_anomaly_ratio_incomplete; [reflexivity|].
    apply incomplete_when_room. cbn [model_data with_model_data model_size].
    rewrite len_app_one. exact H.
  - intros H L. unfold cycle, exec.
    rewrite check_if_anomaly_building by (apply incomplete_when_room; lia).
    cbn [fst snd].
    rewrite calculate_anomaly_ratio_filling.
    + destruct d; reflexivity.
    + unfold is_model_complete. cbn [model_data with_model_data model_size].
      rewrite len_app_one. apply Z.eqb_eq. exact H.
    + exact L.
Qed.
End CompletingCycle.

Lemma completing_cycle_records_flag_witness :
  anomaly_list
    (cycle (float_sqrt := sqrt_15_digits) SingleSignal (Num 3)
       (cycle (float_sqrt := sqrt_15_digits) SingleSignal (Num 2)
          (cycle (float_sqrt := sqrt_15_digits) SingleSignal (Num 1)
             (new_detector "s" 3 3))))
  = [0%Z].
Proof.
  rewrite (proj2 (@completing_cycle_records_flag sqrt_15_digits SingleSignal
                    (cycle (float_sqrt := sqrt_15_digits) SingleSignal (Num 2)
                       (cycle (float_sqrt := sqrt_15_digits) SingleSignal (Num 1)
                          (new_detector "s" 3 3)))
                    (Num 3)) eq_refl eq_refl).
  reflexivity.
Defined.

(* ----------------------------------------------------------------- *)
(** ** The air valve handler *)

Lemma bind_on_valve {A B} (u : valve_unit) (m : M detector A) (a : A)
    (k : A -> M valve_handler B) (h : valve_handler) :
  result_of m (get_valve u h) = Ok a ->
  bind (on_valve u m) k h
  = (let '(r, s, l) := k a (set_valve u (exec m (get_valve u h)) h) in
     (r, s, logs_of m (get_valve u h) ++ l)).
Proof.
  unfold result_of, exec, logs_of, bind, on_valve. intros E.
  destruct (m (get_valve u h)) as [[r d] l]. cbn [fst snd] in *. subst r.
  reflexivity.
Qed.

Lemma get_set_valve (u : valve_unit) (d : detector) (h : valve_handler) :
  get_valve u (set_valve u d h) = d.
Proof. destruct u; reflexivity. Qed.

Lemma set_set_valve (u : valve_unit) (d d' : detector) (h : valve_handler) :
  set_valve u d' (set_valve u d h) = set_valve u d' h.
Proof. destruct u; reflexivity. Qed.

Section AirValveProperties.
Context {float_sqrt : FloatSqrt}.

(** X16.  [time_type_analytics] by key.  A time type that is not one of the
    four keys of [air_valve_dict] raises [KeyError] before anything is done,
    and a turn of [read_values] with such a reading ends with that exception.
    For a key of the dictionary the method runs one cycle (threshold,
    classification, ratio) on the detector of that key and on no other; the
    value it returns under the name [z_score] is the standard deviation of the
    model, not the z-score. *)
Theorem time_type_analytics_by_key (z : Q) (time_type : string) (v : pyvalue)
    (h : valve_handler) :
  (dict_get time_type air_valve_dict = None ->
   time_type_analytics z time_type v h = KeyError time_type
   /\ forall timestamp seen,
        dict_get time_type seen <> Some timestamp ->
        valve_read_values_step z time_type v timestamp seen h = KeyError time_type)
  /\ (forall obj,
        dict_get time_type air_valve_dict = Some obj ->
        let d' := exec calculate_anomaly_ratio
                    (exec (check_if_anomaly AirValve v)
                       (exec (set_z_score_thresh z) (get_valve obj h))) in
        exists l,
          time_type_analytics z time_type v h
          = Found (Ok (mkValveStatistics (anomaly d') (anomaly_ratio d') (model_avg d')
                         (model_std_dev d') (z_score_thresh d')),
                   set_valve obj d' h, l)
          /\ sensor_analytics (set_valve obj d' h) = sensor_analytics h
          /\ forall other, other <> obj ->
               get_valve other (set_valve obj d' h) = get_valve other h).
Proof.
  split.
  - intros N. assert (E : time_type_analytics z time_type v h = KeyError time_type).
    { unfold time_type_analytics. rewrite N. reflexivity. }
    split; [exact E|].
    intros timestamp seen NS. unfold valve_read_values_step. cbv zeta. rewrite E.
    destruct (dict_get time_type seen) as [t|]; [|reflexivity].
    destruct (t =? timestamp)%Z eqn:T; [|reflexivity].
    exfalso. apply Z.eqb_eq in T. subst t. apply NS. reflexivity.
  - intros obj K. cbv zeta. unfold time_type_analytics. rewrite K.
    rewrite (@bind_on_valve _ _ obj (set_z_score_thresh z) tt)
      by apply set_z_score_thresh_total.
    rewrite (@bind_on_valve _ _ obj (check_if_anomaly AirValve v) tt)
      by apply check_if_anomaly_total.
    rewrite (@bind_on_valve _ _ obj calculate_anomaly_ratio tt)
      by apply calculate_anomaly_ratio_total.
    rewrite !get_set_valve, !set_set_valve.
    unfold bind, read, ret. cbn [fst snd]. rewrite !get_set_valve.
    eexists. split; [reflexivity|]. split.
    + destruct obj; reflexivity.
    + intros other NE. destruct other, obj; try reflexivity; contradiction.
Qed.
End AirValveProperties.

Lemma time_type_analytics_by_key_witness :
  time_type_analytics (float_sqrt := sqrt_15_digits) 2 "RetractCmdtime" (Num 120)
    (new_valve_handler 3 3)
  = KeyError "RetractCmdtime"%string
  /\ exists l,
      time_type_analytics (float_sqrt := sqrt_15_digits) 2 "RetractCmdTime" (Num 120)
        (new_valve_handler 3 3)
      = Found (Ok (mkValveStatistics 0 0 0 0 2),
               set_valve RetractCmd
                 (exec (set_z_score_thresh 2)
                    (with_model_data [Num 120] (new_detector "AirValveRetractCmd" 3 3)))
                 (new_valve_handler 3 3),
               l).
Proof.
  destruct (@time_type_analytics_by_key sqrt_15_digits 2 "RetractCmdtime"%string
              (Num 120) (new_valve_handler 3 3)) as (A & _).
  destruct (@time_type_analytics_by_key sqrt_15_digits 2 "RetractCmdTime"%string
              (Num 120) (new_valve_handler 3 3)) as (_ & B).
  split.
  - apply A. reflexivity.
  - destruct (B RetractCmd eq_refl) as (l & E & _). exists l. exact E.
Defined.

(* ----------------------------------------------------------------- *)
(** ** The single-signal handler *)

Section SingleSignalProperties.
Context {float_sqrt : FloatSqrt}.



End SingleSignalProperties.


(* ----------------------------------------------------------------- *)
(** ** The window is first in, first out *)

Section Fifo.
Context {float_sqrt : FloatSqrt}.
Variable V : variant.

Lemma normal_call_slides (d : detector) (v : pyvalue) :
  is_model_complete d = true ->
  logs_of (check_if_anomaly V v) d = [] ->
  anomaly (exec (check_if_anomaly V v) d) = 0%Z ->
  model_data (exec (check_if_anomaly V v) d) = tl (model_data d) ++ [v]
  /\ model_data d <> [].
Proof.
  unfold logs_of, exec.
  destruct (check_if_anomaly_cases V d v) as (d' & l & E & H). rewrite E. cbn [fst snd].
  intros C L A.
  destruct H as [(C' & _ & _) | [(_ & e & a & s & -> & _)
    | [(_ & _ & a & s & z & -> & _) | (_ & _ & a & s & z & x & rest & D & -> & _)]]].
  - congruence.
  - discriminate L.
  - destruct d; cbn in A. discriminate A.
  - rewrite D. destruct d; cbn. split; [reflexivity | discriminate].
Qed.

Lemma skipn_snoc {A} (n : nat) (l : list A) (x : A) :
  (n <= length l)%nat -> skipn n (l ++ [x]) = skipn n l ++ [x].
Proof.
  intros H. rewrite skipn_app.
  replace (n - length l)%nat with 0%nat by lia. reflexivity.
Qed.

(** X18.  The window is a first-in first-out queue of the values classified
    as normal: when each value of a sequence is classified as normal on a
    complete model, the window afterwards is what is left of the old window
    followed by the values, in order of arrival, once as many of the oldest
    entries as there were values have been dropped. *)
Theorem window_is_fifo (values : list pyvalue) (d : detector) :
  is_model_complete d = true ->
  all_normal V values d ->
  model_data (feed V values d)
  = skipn (length values) (model_data d ++ values).
Proof.
  revert d. induction values as [|v rest IH]; intros d C N.
  - cbn. rewrite app_nil_r. reflexivity.
  - destruct N as (L & A & N). cbn [feed].
    destruct (normal_call_slides d v C L A) as (S & NE).
    rewrite (IH _ (check_if_anomaly_complete V d v C) N). rewrite S.
    destruct (model_data d) as [|x w]; [contradiction|].
    cbn [tl length skipn app]. rewrite <- app_assoc. reflexivity.
Qed.
End Fifo.

Lemma window_is_fifo_witness :
  let d := exec (set_z_score_thresh 5)
             (feed (float_sqrt := sqrt_15_digits) Electrical
                [Num 1; Num 2; Num 3] (new_detector "s" 3 3)) in
  model_data (feed (float_sqrt := sqrt_15_digits) Electrical [Num 2; Num 3] d)
  = [Num 3; Num 2; Num 3].
Proof.
  cbv zeta.
  rewrite (@window_is_fifo sqrt_15_digits Electrical [Num 2; Num 3]
             (exec (set_z_score_thresh 5)
                (feed (float_sqrt := sqrt_15_digits) Electrical
                   [Num 1; Num 2; Num 3] (new_detector "s" 3 3)))).
  - reflexivity.
  - reflexivity.
  - cbn [all_normal]. repeat split.
Defined.

(* ----------------------------------------------------------------- *)
(** ** Rounding is monotone *)





(* ----------------------------------------------------------------- *)
(** ** A larger deviation is not less of an anomaly *)

Section Monotone.
Context {float_sqrt : FloatSqrt}.
Variable V : variant.




End Monotone.

